(** * ParsedDelete: the delete-request compiler of mongo/db/ops/parsed_delete.cpp

    A shallow embedding of [ParsedDelete] (constructor, [parseRequest],
    [parseQueryToCQ], [hasParsedQuery], [releaseParsedQuery],
    [isEligibleForArbitraryTimeseriesDelete]) as a state-and-failure monad over
    the object's members, followed by the properties of the write path that
    depend on it.

    The classes and functions the file only calls (collation resolution, the
    time-series predicate splitter, the canonicalizer, ...) are taken as
    parameters, collected in two type classes. *)

From Stdlib Require Import ZArith List String Bool.
Import ListNotations.
Local Open Scope Z_scope.
Local Open Scope string_scope.
Local Open Scope list_scope.

Set Implicit Arguments.

(** ** BSON documents

    Only emptiness of a document is observed by the code in this file. *)

#[local] Unset Elimination Schemes.
Inductive BSONValue : Type :=
| BNull
| BBool (b : bool)
| BInt (n : Z)
| BString (s : string)
| BDoc (fields : list (string * BSONValue)).
#[local] Set Elimination Schemes.

Definition BSONObj : Type := list (string * BSONValue).

Definition isEmpty (o : BSONObj) : bool :=
  match o with
  | [] => true
  | _ :: _ => false
  end.

Definition emptyObj : BSONObj := [].

(** ** Status, StatusWith and the assertion macros *)

Definition ErrorCode : Type := Z.

(** Modelled from the spec: [ErrorCodes::InvalidOptions], the error kind of an
    invalid combination of options; error_codes.yml, where it is numbered 72,
    is not part of this file. *)
Definition InvalidOptions : ErrorCode := 72.

Inductive Status : Type :=
| StatusOK
| StatusError (code : ErrorCode) (reason : string).

Inductive StatusWith (A : Type) : Type :=
| SWValue (a : A)
| SWError (code : ErrorCode) (reason : string).
Arguments SWError {A} code reason.

Definition getStatus {A} (s : StatusWith A) : Status :=
  match s with
  | SWValue _ => StatusOK
  | SWError c r => StatusError c r
  end.

(** What leaves a member function other than its return value: an exception
    thrown by [uassert] (a user assertion carrying an error code) or by
    [tassert] (a tripwire assertion), or the end of the process on a failed
    [invariant]. *)
Inductive AssertionException : Type :=
| UserAssertion (code : ErrorCode) (msg : string)
| TripwireAssertion (code : ErrorCode) (msg : string).

Inductive AbortReason : Type :=
| InvariantFailure
| NullDereference.

Inductive Completion (A : Type) : Type :=
| Returned (a : A)
| Thrown (e : AssertionException)
| Aborted (why : AbortReason).
Arguments Thrown {A} e.
Arguments Aborted {A} why.

Definition isUserFacing {A} (c : Completion A) : bool :=
  match c with
  | Thrown (UserAssertion _ _) => true
  | _ => false
  end.

Definition isTripwire {A} (c : Completion A) : bool :=
  match c with
  | Thrown (TripwireAssertion _ _) => true
  | _ => false
  end.

Definition isAborted {A} (c : Completion A) : bool :=
  match c with
  | Aborted _ => true
  | _ => false
  end.

Definition isSome {A} (o : option A) : bool :=
  match o with
  | Some _ => true
  | None => false
  end.

(** ** Types this file only holds or passes on *)

Class OpaqueTypes : Type := {
  OperationContext : Type;
  CollectionPtr : Type;
  NamespaceString : Type;
  CollatorInterface : Type;
  MatchExpression : Type;
  CanonicalQuery : Type;
  TimeseriesOptions : Type;
  LegacyRuntimeConstants : Type
}.

Section Model.

Context {T : OpaqueTypes}.

(** [DeleteRequest], with the accessors the file reads. *)
Record DeleteRequest : Type := {
  getNsString : NamespaceString;
  getQuery : BSONObj;
  getProj : BSONObj;
  getSort : BSONObj;
  getCollation : BSONObj;
  getHint : BSONObj;
  getLegacyRuntimeConstants : option LegacyRuntimeConstants;
  getLet : option BSONObj;
  getMulti : bool;
  getReturnDeleted : bool;
  getIsExplain : bool
}.

(** [FindCommandRequest]: what the canonicalizer receives.  A request built
    from a namespace alone has every other field empty or unset. *)
Record FindCommandRequest : Type := {
  fcNamespace : NamespaceString;
  getFilter : BSONObj;
  getProjection : BSONObj;
  fcSort : BSONObj;
  fcCollation : BSONObj;
  fcHint : BSONObj;
  getLimit : option Z;
  fcLegacyRuntimeConstants : option LegacyRuntimeConstants;
  fcLet : option BSONObj
}.

Definition newFindCommandRequest (ns : NamespaceString) : FindCommandRequest :=
  {| fcNamespace := ns; getFilter := emptyObj; getProjection := emptyObj;
     fcSort := emptyObj; fcCollation := emptyObj; fcHint := emptyObj;
     getLimit := None; fcLegacyRuntimeConstants := None; fcLet := None |}.

Definition setFilter (fc : FindCommandRequest) (f : BSONObj) : FindCommandRequest :=
  {| fcNamespace := fcNamespace fc; getFilter := f; getProjection := getProjection fc;
     fcSort := fcSort fc; fcCollation := fcCollation fc; fcHint := fcHint fc;
     getLimit := getLimit fc;
     fcLegacyRuntimeConstants := fcLegacyRuntimeConstants fc; fcLet := fcLet fc |}.

Definition setSort (fc : FindCommandRequest) (s : BSONObj) : FindCommandRequest :=
  {| fcNamespace := fcNamespace fc; getFilter := getFilter fc; getProjection := getProjection fc;
     fcSort := s; fcCollation := fcCollation fc; fcHint := fcHint fc;
     getLimit := getLimit fc;
     fcLegacyRuntimeConstants := fcLegacyRuntimeConstants fc; fcLet := fcLet fc |}.

Definition setCollation (fc : FindCommandRequest) (c : BSONObj) : FindCommandRequest :=
  {| fcNamespace := fcNamespace fc; getFilter := getFilter fc; getProjection := getProjection fc;
     fcSort := fcSort fc; fcCollation := c; fcHint := fcHint fc;
     getLimit := getLimit fc;
     fcLegacyRuntimeConstants := fcLegacyRuntimeConstants fc; fcLet := fcLet fc |}.

Definition setHint (fc : FindCommandRequest) (h : BSONObj) : FindCommandRequest :=
  {| fcNamespace := fcNamespace fc; getFilter := getFilter fc; getProjection := getProjection fc;
     fcSort := fcSort fc; fcCollation := fcCollation fc; fcHint := h;
     getLimit := getLimit fc;
     fcLegacyRuntimeConstants := fcLegacyRuntimeConstants fc; fcLet := fcLet fc |}.

Definition setLimit (fc : FindCommandRequest) (n : Z) : FindCommandRequest :=
  {| fcNamespace := fcNamespace fc; getFilter := getFilter fc; getProjection := getProjection fc;
     fcSort := fcSort fc; fcCollation := fcCollation fc; fcHint := fcHint fc;
     getLimit := Some n;
     fcLegacyRuntimeConstants := fcLegacyRuntimeConstants fc; fcLet := fcLet fc |}.

Definition setLegacyRuntimeConstants (fc : FindCommandRequest)
    (rc : LegacyRuntimeConstants) : FindCommandRequest :=
  {| fcNamespace := fcNamespace fc; getFilter := getFilter fc; getProjection := getProjection fc;
     fcSort := fcSort fc; fcCollation := fcCollation fc; fcHint := fcHint fc;
     getLimit := getLimit fc;
     fcLegacyRuntimeConstants := Some rc; fcLet := fcLet fc |}.

Definition setLet (fc : FindCommandRequest) (l : BSONObj) : FindCommandRequest :=
  {| fcNamespace := fcNamespace fc; getFilter := getFilter fc; getProjection := getProjection fc;
     fcSort := fcSort fc; fcCollation := fcCollation fc; fcHint := fcHint fc;
     getLimit := getLimit fc;
     fcLegacyRuntimeConstants := fcLegacyRuntimeConstants fc; fcLet := Some l |}.

(** [ExpressionContext], as far as this file builds and drives it.
    [countersActive] is the state of the expression counters. *)
Record ExpressionContext : Type := {
  ecOpCtx : OperationContext;
  ecCollator : option CollatorInterface;
  ecNamespace : NamespaceString;
  ecRuntimeConstants : option LegacyRuntimeConstants;
  ecLet : option BSONObj;
  collationMatchesDefault : bool;
  countersActive : bool
}.

Definition newExpressionContext (opCtx : OperationContext)
    (collator : option CollatorInterface) (ns : NamespaceString)
    (rc : option LegacyRuntimeConstants) (letParams : option BSONObj)
  : ExpressionContext :=
  {| ecOpCtx := opCtx; ecCollator := collator; ecNamespace := ns;
     ecRuntimeConstants := rc; ecLet := letParams;
     collationMatchesDefault := false; countersActive := false |}.

Definition setCollationMatchesDefault (c : ExpressionContext) (b : bool)
  : ExpressionContext :=
  {| ecOpCtx := ecOpCtx c; ecCollator := ecCollator c; ecNamespace := ecNamespace c;
     ecRuntimeConstants := ecRuntimeConstants c; ecLet := ecLet c;
     collationMatchesDefault := b; countersActive := countersActive c |}.

Definition setCountersActive (c : ExpressionContext) (b : bool) : ExpressionContext :=
  {| ecOpCtx := ecOpCtx c; ecCollator := ecCollator c; ecNamespace := ecNamespace c;
     ecRuntimeConstants := ecRuntimeConstants c; ecLet := ecLet c;
     collationMatchesDefault := collationMatchesDefault c; countersActive := b |}.

(** [timeseries::TimeseriesWritesQueryExprs]: two owning pointers, either of
    which may be null. *)
Record TimeseriesWritesQueryExprs : Type := {
  _bucketExpr : option MatchExpression;
  _residualExpr : option MatchExpression
}.

(** ** The functions this file calls

    They are declared elsewhere in the repository.  Each is taken as a total
    function of the arguments the call site passes, with the result type the
    call site uses. *)

Class Collaborators : Type := {
  (** [kDebugBuild]: whether [dassert] is compiled in. *)
  kDebugBuild : bool;
  (** [feature_flags::gTimeseriesDeletesSupport.isEnabled(
      serverGlobalParams.featureCompatibility)]. *)
  gTimeseriesDeletesSupport_isEnabled : bool;
  createTimeseriesWritesQueryExprsIfNecessary :
    bool -> CollectionPtr -> option TimeseriesWritesQueryExprs;
  (** [*collection->getTimeseriesOptions()]: the source dereferences the
      optional without a test. *)
  getTimeseriesOptions : CollectionPtr -> TimeseriesOptions;
  resolveCollator :
    OperationContext -> BSONObj -> CollectionPtr -> option CollatorInterface * bool;
  (** [CanonicalQuery::isSimpleIdQuery]. *)
  isSimpleIdQuery : BSONObj -> bool;
  (** [timeseries::getMatchExprsForWrites]. *)
  getMatchExprsForWrites :
    ExpressionContext -> TimeseriesOptions -> BSONObj -> TimeseriesWritesQueryExprs;
  (** [MatchExpression::serialize]. *)
  serialize : MatchExpression -> BSONObj;
  (** [CanonicalQuery::canonicalize]; the extensions callback is built from the
      operation context and the namespace, the allowed features are constant. *)
  canonicalize :
    OperationContext -> FindCommandRequest -> bool -> ExpressionContext ->
    NamespaceString -> StatusWith CanonicalQuery
}.

Context {E : Collaborators}.

(** ** The object and the log of its calls

    [calls] is a record of the calls the object made to its collaborators and
    to the expression counters, oldest first.  It is not a member of the C++
    class; the properties about what is invoked, and in which order, are stated
    on it. *)

Inductive Event : Type :=
| EvResolveCollator (userCollation : BSONObj)
| EvStartExpressionCounters
| EvGetMatchExprsForWrites (query : BSONObj)
| EvStopExpressionCounters
| EvCanonicalize (findCommand : FindCommandRequest) (isExplain : bool)
                 (expCtx : ExpressionContext).

Record ParsedDelete : Type := {
  _opCtx : OperationContext;
  _request : DeleteRequest;
  _collection : CollectionPtr;
  _timeseriesDeleteQueryExprs : option TimeseriesWritesQueryExprs;
  _expCtx : option ExpressionContext;
  _canonicalQuery : option CanonicalQuery;
  calls : list Event
}.

Definition set_timeseriesDeleteQueryExprs (pd : ParsedDelete)
    (x : option TimeseriesWritesQueryExprs) : ParsedDelete :=
  {| _opCtx := _opCtx pd; _request := _request pd; _collection := _collection pd;
     _timeseriesDeleteQueryExprs := x; _expCtx := _expCtx pd;
     _canonicalQuery := _canonicalQuery pd; calls := calls pd |}.

Definition set_expCtx (pd : ParsedDelete) (x : option ExpressionContext) : ParsedDelete :=
  {| _opCtx := _opCtx pd; _request := _request pd; _collection := _collection pd;
     _timeseriesDeleteQueryExprs := _timeseriesDeleteQueryExprs pd; _expCtx := x;
     _canonicalQuery := _canonicalQuery pd; calls := calls pd |}.

Definition set_canonicalQuery (pd : ParsedDelete) (x : option CanonicalQuery) : ParsedDelete :=
  {| _opCtx := _opCtx pd; _request := _request pd; _collection := _collection pd;
     _timeseriesDeleteQueryExprs := _timeseriesDeleteQueryExprs pd; _expCtx := _expCtx pd;
     _canonicalQuery := x; calls := calls pd |}.

Definition record_call (pd : ParsedDelete) (e : Event) : ParsedDelete :=
  {| _opCtx := _opCtx pd; _request := _request pd; _collection := _collection pd;
     _timeseriesDeleteQueryExprs := _timeseriesDeleteQueryExprs pd; _expCtx := _expCtx pd;
     _canonicalQuery := _canonicalQuery pd; calls := calls pd ++ [e] |}.

(** ** The monad of member functions *)

Definition M (A : Type) : Type := ParsedDelete -> Completion A * ParsedDelete.

Definition ret {A} (a : A) : M A := fun pd => (Returned a, pd).

Definition bind {A B} (m : M A) (k : A -> M B) : M B :=
  fun pd =>
    match m pd with
    | (Returned a, pd') => k a pd'
    | (Thrown e, pd') => (Thrown e, pd')
    | (Aborted w, pd') => (Aborted w, pd')
    end.

Definition get : M ParsedDelete := fun pd => (Returned pd, pd).
Definition modify (f : ParsedDelete -> ParsedDelete) : M unit :=
  fun pd => (Returned tt, f pd).
Definition log (e : Event) : M unit := modify (fun pd => record_call pd e).

(** Modelled from the spec: the assertion macros of mongo/util/assert_util.h,
    which is not part of this file.  A failed [invariant] is fatal. *)
Definition invariant (b : bool) : M unit :=
  fun pd => if b then (Returned tt, pd) else (Aborted InvariantFailure, pd).

(** Modelled from the spec: [dassert] is [invariant] in debug builds and
    nothing otherwise. *)
Definition dassert (b : bool) : M unit :=
  if kDebugBuild then invariant b else ret tt.

(** Modelled from the spec: a failed [uassert] raises a user-facing error of
    the given kind. *)
Definition uassert (code : ErrorCode) (msg : string) (b : bool) : M unit :=
  fun pd => if b then (Returned tt, pd) else (Thrown (UserAssertion code msg), pd).

(** Modelled from the spec: a failed [tassert] raises an internal assertion,
    kept apart from the user-facing errors and from [invariant]. *)
Definition tassert (code : ErrorCode) (msg : string) (b : bool) : M unit :=
  fun pd => if b then (Returned tt, pd) else (Thrown (TripwireAssertion code msg), pd).

(** Access through [_expCtx->]. *)
Definition derefExpCtx : M ExpressionContext :=
  fun pd =>
    match _expCtx pd with
    | Some c => (Returned c, pd)
    | None => (Aborted NullDereference, pd)
    end.

End Model.

Notation "x <- m ;; k" := (bind m (fun x => k))
  (at level 61, m at next level, right associativity).
Notation "m ;;; k" := (bind m (fun _ => k))
  (at level 61, right associativity).

Section Members.

Context {T : OpaqueTypes} {E : Collaborators}.

(** ** Constructor *)

Definition newParsedDelete (opCtx : OperationContext) (request : DeleteRequest)
    (collection : CollectionPtr) (isTimeseriesDelete : bool) : ParsedDelete :=
  {| _opCtx := opCtx;
     _request := request;
     _collection := collection;
     _timeseriesDeleteQueryExprs :=
       if isTimeseriesDelete
       then createTimeseriesWritesQueryExprsIfNecessary
              gTimeseriesDeletesSupport_isEnabled collection
       else None;
     _expCtx := None;
     _canonicalQuery := None;
     calls := [] |}.

(** ** [_expCtx->startExpressionCounters()] and [stopExpressionCounters()] *)

Definition startExpressionCounters : M unit :=
  c <- derefExpCtx ;;
  modify (fun pd => set_expCtx pd (Some (setCountersActive c true))) ;;;
  log EvStartExpressionCounters.

Definition stopExpressionCounters : M unit :=
  c <- derefExpCtx ;;
  modify (fun pd => set_expCtx pd (Some (setCountersActive c false))) ;;;
  log EvStopExpressionCounters.

(** ** [ParsedDelete::parseQueryToCQ] *)

Definition tsSortMessage : string :=
  "Cannot perform a findAndModify with a query and sort on a time-series collection.".

Definition parseQueryToCQ : M Status :=
  pd0 <- get ;;
  dassert (negb (isSome (_canonicalQuery pd0))) ;;;
  let request := _request pd0 in
  let findCommand := newFindCommandRequest (getNsString request) in
  findCommand <-
    match _timeseriesDeleteQueryExprs pd0 with
    | Some _ =>
        expCtx <- derefExpCtx ;;
        let queryExprs :=
          getMatchExprsForWrites expCtx (getTimeseriesOptions (_collection pd0))
                                 (getQuery request) in
        log (EvGetMatchExprsForWrites (getQuery request)) ;;;
        modify (fun pd => set_timeseriesDeleteQueryExprs pd (Some queryExprs)) ;;;
        stopExpressionCounters ;;;
        tassert 7542400 "Bucket-level filter must not be null"
                (isSome (_bucketExpr queryExprs)) ;;;
        match _bucketExpr queryExprs with
        | Some bucketExpr => ret (setFilter findCommand (serialize bucketExpr))
        | None => fun pd => (Aborted NullDereference, pd)
        end
    | None => ret (setFilter findCommand (getQuery request))
    end ;;
  let findCommand := setSort findCommand (getSort request) in
  let findCommand := setCollation findCommand (getCollation request) in
  let findCommand := setHint findCommand (getHint request) in
  findCommand <-
    (if negb (getMulti request) && negb (isEmpty (getSort request))
     then
       pd <- get ;;
       uassert InvalidOptions tsSortMessage
               (negb (isSome (_timeseriesDeleteQueryExprs pd))) ;;;
       ret (setLimit findCommand 1)
     else ret findCommand) ;;
  let findCommand :=
    match getLegacyRuntimeConstants request with
    | Some runtimeConstants => setLegacyRuntimeConstants findCommand runtimeConstants
    | None => findCommand
    end in
  let findCommand :=
    match getLet request with
    | Some letParams => setLet findCommand letParams
    | None => findCommand
    end in
  expCtx <- derefExpCtx ;;
  log (EvCanonicalize findCommand (getIsExplain request) expCtx) ;;;
  let statusWithCQ :=
    canonicalize (_opCtx pd0) findCommand (getIsExplain request) expCtx
                 (getNsString request) in
  match statusWithCQ with
  | SWValue cq => modify (fun pd => set_canonicalQuery pd (Some cq))
  | SWError _ _ => ret tt
  end ;;;
  ret (getStatus statusWithCQ).

(** ** [ParsedDelete::parseRequest] *)

Definition parseRequest : M Status :=
  pd0 <- get ;;
  dassert (negb (isSome (_canonicalQuery pd0))) ;;;
  let request := _request pd0 in
  invariant (negb (getReturnDeleted request && getMulti request)) ;;;
  invariant (isEmpty (getProj request) || getReturnDeleted request) ;;;
  let '(collatorToUse, matchesDefault) :=
    resolveCollator (_opCtx pd0) (getCollation request) (_collection pd0) in
  log (EvResolveCollator (getCollation request)) ;;;
  modify (fun pd =>
    set_expCtx pd
      (Some (setCollationMatchesDefault
               (newExpressionContext (_opCtx pd0) collatorToUse (getNsString request)
                                     (getLegacyRuntimeConstants request)
                                     (getLet request))
               matchesDefault))) ;;;
  if isSimpleIdQuery (getQuery request) && negb (isSome (_timeseriesDeleteQueryExprs pd0))
  then ret StatusOK
  else
    startExpressionCounters ;;;
    parseQueryToCQ.

(** ** Accessors *)

Definition getRequest (pd : ParsedDelete) : DeleteRequest := _request pd.

Definition hasParsedQuery (pd : ParsedDelete) : bool := isSome (_canonicalQuery pd).

Definition releaseParsedQuery : M CanonicalQuery :=
  pd <- get ;;
  invariant (isSome (_canonicalQuery pd)) ;;;
  match _canonicalQuery pd with
  | Some cq => modify (fun pd' => set_canonicalQuery pd' None) ;;; ret cq
  | None => fun pd' => (Aborted NullDereference, pd')
  end.

(** Modelled from the spec: [ParsedDelete::getResidualExpr], declared in
    parsed_delete.h, is the residual predicate the split produced, null when
    the delete is not time-partitioned or the split produced none. *)
Definition getResidualExpr (pd : ParsedDelete) : option MatchExpression :=
  match _timeseriesDeleteQueryExprs pd with
  | Some exprs => _residualExpr exprs
  | None => None
  end.

Definition isEligibleForArbitraryTimeseriesDelete (pd : ParsedDelete) : bool :=
  isSome (_timeseriesDeleteQueryExprs pd)
  && (isSome (getResidualExpr pd) || negb (getMulti (_request pd))).

End Members.

(** * Vocabulary of the properties *)

Section Vocabulary.

Context {T : OpaqueTypes} {E : Collaborators}.

(** [compile] is a call of [parseRequest] on a freshly constructed object. *)
Definition compile (opCtx : OperationContext) (request : DeleteRequest)
    (collection : CollectionPtr) (isTimeseriesDelete : bool)
  : Completion Status * ParsedDelete :=
  parseRequest (newParsedDelete opCtx request collection isTimeseriesDelete).

(** The two [invariant]s at the head of [parseRequest]. *)
Definition validRequest (request : DeleteRequest) : bool :=
  negb (getReturnDeleted request && getMulti request)
  && (isEmpty (getProj request) || getReturnDeleted request).

(** The delete is time-partitioned when the object holds query expressions. *)
Definition isTimeseries (pd : ParsedDelete) : bool :=
  isSome (_timeseriesDeleteQueryExprs pd).

Definition canonicalizerInput (e : Event) : option FindCommandRequest :=
  match e with
  | EvCanonicalize fc _ _ => Some fc
  | _ => None
  end.

(** The find commands handed to the canonicalizer, oldest first. *)
Fixpoint canonicalizerInputs (evs : list Event) : list FindCommandRequest :=
  match evs with
  | [] => []
  | e :: rest =>
      match canonicalizerInput e with
      | Some fc => fc :: canonicalizerInputs rest
      | None => canonicalizerInputs rest
      end
  end.

Definition isSplit (e : Event) : bool :=
  match e with
  | EvGetMatchExprsForWrites _ => true
  | _ => false
  end.

Definition isStart (e : Event) : bool :=
  match e with
  | EvStartExpressionCounters => true
  | _ => false
  end.

(** The expression context [parseRequest] builds, before the counters start. *)
Definition requestExpCtx (opCtx : OperationContext) (request : DeleteRequest)
    (collection : CollectionPtr) : ExpressionContext :=
  setCollationMatchesDefault
    (newExpressionContext opCtx
       (fst (resolveCollator opCtx (getCollation request) collection))
       (getNsString request) (getLegacyRuntimeConstants request) (getLet request))
    (snd (resolveCollator opCtx (getCollation request) collection)).

(** What the predicate splitter returns when [parseQueryToCQ] calls it. *)
Definition splitOf (opCtx : OperationContext) (request : DeleteRequest)
    (collection : CollectionPtr) : TimeseriesWritesQueryExprs :=
  getMatchExprsForWrites
    (setCountersActive (requestExpCtx opCtx request collection) true)
    (getTimeseriesOptions collection) (getQuery request).

(** The find command [parseQueryToCQ] assembles around a given filter. *)
Definition assembled (request : DeleteRequest) (filter : BSONObj) : FindCommandRequest :=
  let fc := setFilter (newFindCommandRequest (getNsString request)) filter in
  let fc := setHint (setCollation (setSort fc (getSort request)) (getCollation request))
                    (getHint request) in
  let fc := if negb (getMulti request) && negb (isEmpty (getSort request))
            then setLimit fc 1 else fc in
  let fc := match getLegacyRuntimeConstants request with
            | Some rc => setLegacyRuntimeConstants fc rc
            | None => fc
            end in
  match getLet request with
  | Some l => setLet fc l
  | None => fc
  end.

(** The state a run of the canonicalizer leaves behind. *)
Definition afterCanonicalize (opCtx : OperationContext) (request : DeleteRequest)
    (collection : CollectionPtr) (ts : option TimeseriesWritesQueryExprs)
    (ctx : ExpressionContext) (fc : FindCommandRequest) (evs : list Event)
  : Completion Status * ParsedDelete :=
  let sw := canonicalize opCtx fc (getIsExplain request) ctx (getNsString request) in
  (Returned (getStatus sw),
   {| _opCtx := opCtx; _request := request; _collection := collection;
      _timeseriesDeleteQueryExprs := ts; _expCtx := Some ctx;
      _canonicalQuery := match sw with SWValue cq => Some cq | SWError _ _ => None end;
      calls := evs ++ [EvCanonicalize fc (getIsExplain request) ctx] |}).

(** A freshly constructed object, whatever its query expressions. *)
Definition fresh (opCtx : OperationContext) (request : DeleteRequest)
    (collection : CollectionPtr) (ts : option TimeseriesWritesQueryExprs)
  : ParsedDelete :=
  {| _opCtx := opCtx; _request := request; _collection := collection;
     _timeseriesDeleteQueryExprs := ts; _expCtx := None; _canonicalQuery := None;
     calls := [] |}.

Definition tsEvents (request : DeleteRequest) : list Event :=
  [EvResolveCollator (getCollation request); EvStartExpressionCounters;
   EvGetMatchExprsForWrites (getQuery request); EvStopExpressionCounters].

(** The state of a time-partitioned delete once the split is stored and the
    counters are stopped. *)
Definition afterSplit (opCtx : OperationContext) (request : DeleteRequest)
    (collection : CollectionPtr) : ParsedDelete :=
  {| _opCtx := opCtx; _request := request; _collection := collection;
     _timeseriesDeleteQueryExprs := Some (splitOf opCtx request collection);
     _expCtx := Some (requestExpCtx opCtx request collection);
     _canonicalQuery := None;
     calls := tsEvents request |}.

(** The six ways through [parseRequest] on a fresh object. *)
Inductive Path (opCtx : OperationContext) (request : DeleteRequest)
    (collection : CollectionPtr) (ts : option TimeseriesWritesQueryExprs)
  : Completion Status * ParsedDelete -> Prop :=
| PathInvalid :
    validRequest request = false ->
    Path opCtx request collection ts
         (Aborted InvariantFailure, fresh opCtx request collection ts)
| PathFast :
    validRequest request = true -> ts = None ->
    isSimpleIdQuery (getQuery request) = true ->
    Path opCtx request collection ts
         (Returned StatusOK,
          {| _opCtx := opCtx; _request := request; _collection := collection;
             _timeseriesDeleteQueryExprs := None;
             _expCtx := Some (requestExpCtx opCtx request collection);
             _canonicalQuery := None;
             calls := [EvResolveCollator (getCollation request)] |})
| PathPlain :
    validRequest request = true -> ts = None ->
    isSimpleIdQuery (getQuery request) = false ->
    Path opCtx request collection ts
         (afterCanonicalize opCtx request collection None
            (setCountersActive (requestExpCtx opCtx request collection) true)
            (assembled request (getQuery request))
            [EvResolveCollator (getCollation request); EvStartExpressionCounters])
| PathNullBucket :
    validRequest request = true -> ts <> None ->
    _bucketExpr (splitOf opCtx request collection) = None ->
    Path opCtx request collection ts
         (Thrown (TripwireAssertion 7542400 "Bucket-level filter must not be null"),
          afterSplit opCtx request collection)
| PathSortOnTimeseries b :
    validRequest request = true -> ts <> None ->
    _bucketExpr (splitOf opCtx request collection) = Some b ->
    getMulti request = false -> isEmpty (getSort request) = false ->
    Path opCtx request collection ts
         (Thrown (UserAssertion InvalidOptions tsSortMessage),
          afterSplit opCtx request collection)
| PathBucket b :
    validRequest request = true -> ts <> None ->
    _bucketExpr (splitOf opCtx request collection) = Some b ->
    negb (getMulti request) && negb (isEmpty (getSort request)) = false ->
    Path opCtx request collection ts
         (afterCanonicalize opCtx request collection
            (Some (splitOf opCtx request collection))
            (requestExpCtx opCtx request collection)
            (assembled request (serialize b))
            (tsEvents request)).

(** The same request with another projection. *)
Definition withProj (request : DeleteRequest) (proj : BSONObj) : DeleteRequest :=
  {| getNsString := getNsString request; getQuery := getQuery request;
     getProj := proj; getSort := getSort request;
     getCollation := getCollation request; getHint := getHint request;
     getLegacyRuntimeConstants := getLegacyRuntimeConstants request;
     getLet := getLet request; getMulti := getMulti request;
     getReturnDeleted := getReturnDeleted request;
     getIsExplain := getIsExplain request |}.

End Vocabulary.

(** * A concrete instance

    Small stand-ins for the collaborators, used to run the member functions on
    concrete requests. *)

Module Demo.

(** A collection: whether it is a time-series collection and its default
    collation. *)
Record Collection : Type := {
  isTimeseriesCollection : bool;
  defaultCollation : BSONObj
}.

(** Match expressions: the guard that excludes closed buckets, an equality on
    a path, and conjunction. *)
Inductive Expr : Type :=
| ClosedBucketGuard
| FieldEq (path : string) (value : BSONValue)
| AndExpr (l r : Expr).

Fixpoint includesClosedBucketGuard (e : Expr) : bool :=
  match e with
  | ClosedBucketGuard => true
  | FieldEq _ _ => false
  | AndExpr l r => includesClosedBucketGuard l || includesClosedBucketGuard r
  end.

Fixpoint serializeExpr (e : Expr) : BSONObj :=
  match e with
  | ClosedBucketGuard =>
      [("control.closed", BDoc [("$not", BDoc [("$eq", BBool true)])])]
  | FieldEq path value => [(path, BDoc [("$eq", value)])]
  | AndExpr l r =>
      [("$and", BDoc [("0", BDoc (serializeExpr l)); ("1", BDoc (serializeExpr r))])]
  end.

Definition types : OpaqueTypes :=
  {| OperationContext := unit;
     CollectionPtr := Collection;
     NamespaceString := string;
     CollatorInterface := BSONObj;
     MatchExpression := Expr;
     CanonicalQuery := BSONObj * option Z;
     TimeseriesOptions := string;
     LegacyRuntimeConstants := Z |}.

#[local] Existing Instance types.

(** A single top-level equality on _id against a scalar. *)
Definition simpleIdQuery (query : BSONObj) : bool :=
  match query with
  | [(name, value)] =>
      String.eqb name "_id"
      && match value with
         | BDoc _ => false
         | _ => true
         end
  | _ => false
  end.

Definition hasTopLevelOperator (filter : BSONObj) : bool :=
  existsb (fun kv => String.eqb (fst kv) "$bogus") filter.

(** Collaborators around a given feature-flag value and predicate splitter.
    Query expressions exist when the flag is on and the collection is a
    time-series collection; the canonicalizer rejects a filter with an
    unknown top-level operator and otherwise keeps filter and limit. *)
Definition collaborators (featureFlag : bool)
    (split : BSONObj -> @TimeseriesWritesQueryExprs types) : @Collaborators types :=
  @Build_Collaborators types
    (* kDebugBuild *) true
    (* gTimeseriesDeletesSupport_isEnabled *) featureFlag
    (* createTimeseriesWritesQueryExprsIfNecessary *)
    (fun enabled (coll : Collection) =>
       if enabled && isTimeseriesCollection coll
       then Some {| _bucketExpr := None; _residualExpr := None |}
       else None)
    (* getTimeseriesOptions *) (fun _ => "time")
    (* resolveCollator *)
    (fun _ userCollation (coll : Collection) =>
       if isEmpty userCollation
       then ((if isEmpty (defaultCollation coll) then None
              else Some (defaultCollation coll)), true)
       else (Some userCollation, false))
    (* isSimpleIdQuery *) simpleIdQuery
    (* getMatchExprsForWrites *) (fun _ _ query => split query)
    (* serialize *) serializeExpr
    (* canonicalize *)
    (fun _ fc _ _ _ =>
       if hasTopLevelOperator (getFilter fc)
       then SWError 2 "unknown top level operator"
       else SWValue (getFilter fc, getLimit fc)).

(** A splitter that keeps the guard and leaves the first clause as residual. *)
Definition guardedSplit (query : BSONObj) : @TimeseriesWritesQueryExprs types :=
  {| _bucketExpr := Some ClosedBucketGuard;
     _residualExpr := match query with
                      | [] => None
                      | (path, value) :: _ => Some (FieldEq path value)
                      end |}.

(** A splitter that returns a bucket-level predicate without the guard. *)
Definition guardlessSplit (query : BSONObj) : @TimeseriesWritesQueryExprs types :=
  {| _bucketExpr := Some (FieldEq "meta" (BInt 1)); _residualExpr := None |}.

(** A splitter that returns no bucket-level predicate at all. *)
Definition nullSplit (query : BSONObj) : @TimeseriesWritesQueryExprs types :=
  {| _bucketExpr := None; _residualExpr := None |}.

Definition plainCollection : Collection :=
  {| isTimeseriesCollection := false; defaultCollation := [] |}.

Definition timeseriesCollection : Collection :=
  {| isTimeseriesCollection := true; defaultCollation := [] |}.

Definition mkRequest (query sort proj : BSONObj) (multi returnDeleted : bool)
  : @DeleteRequest types :=
  {| getNsString := "db.weather"; getQuery := query; getProj := proj;
     getSort := sort; getCollation := []; getHint := [];
     getLegacyRuntimeConstants := None; getLet := None;
     getMulti := multi; getReturnDeleted := returnDeleted;
     getIsExplain := false |}.

Definition byTemperature : BSONObj := [("temp", BInt 21)].
Definition byId : BSONObj := [("_id", BInt 7)].
Definition newestFirst : BSONObj := [("time", BInt (-1))].

End Demo.

(** * Further vocabulary *)

Section YieldPolicy.

Context {T : OpaqueTypes}.

(** [PlanYieldPolicy::YieldPolicy] and the two accessors of [DeleteRequest]
    that only [yieldPolicy] reads; they are declared in plan_yield_policy.h
    and delete_request_gen.h. *)
Variable YieldPolicy : Type.
Variable NO_YIELD : YieldPolicy.
Variable getGod : DeleteRequest -> bool.
Variable getYieldPolicy : DeleteRequest -> YieldPolicy.

(** [ParsedDelete::yieldPolicy]. *)
Definition yieldPolicy (pd : ParsedDelete) : YieldPolicy :=
  if getGod (_request pd) then NO_YIELD else getYieldPolicy (_request pd).

End YieldPolicy.

Section MoreVocabulary.

Context {T : OpaqueTypes}.

Definition isResolve (e : Event) : bool :=
  match e with
  | EvResolveCollator _ => true
  | _ => false
  end.

End MoreVocabulary.

(** The same collaborators in a build without debug assertions. *)
Definition releaseBuild {T : OpaqueTypes} (E : Collaborators) : Collaborators :=
  @Build_Collaborators T
    false
    (@gTimeseriesDeletesSupport_isEnabled T E)
    (@createTimeseriesWritesQueryExprsIfNecessary T E)
    (@getTimeseriesOptions T E)
    (@resolveCollator T E)
    (@isSimpleIdQuery T E)
    (@getMatchExprsForWrites T E)
    (@serialize T E)
    (@canonicalize T E).

(** * Proof automation *)

Ltac normalise :=
  cbv -[OperationContext CollectionPtr NamespaceString CollatorInterface MatchExpression
        CanonicalQuery TimeseriesOptions LegacyRuntimeConstants
        kDebugBuild gTimeseriesDeletesSupport_isEnabled
        createTimeseriesWritesQueryExprsIfNecessary getTimeseriesOptions
        resolveCollator isSimpleIdQuery getMatchExprsForWrites serialize canonicalize]
      in *.

(** Runs the member functions, splitting on whatever the control flow reads
    next: a flag of the request, a build option, a collaborator's answer. *)
Ltac crunch request :=
  destruct request as [ns query proj sort collation hint rc letParams multi
                       returnDeleted isExplain];
  repeat (normalise; try discriminate;
          repeat match goal with
                 | H : Some _ = Some _ |- _ => injection H as H; subst
                 end;
          match goal with
          | |- context [match ?x with _ => _ end] =>
              lazymatch x with
              | context [match _ with _ => _ end] => fail
              | _ => destruct x
              end
          end);
  normalise; try discriminate.

(** Runs [parseRequest] on an arbitrary object. *)
Ltac crunch_object pd :=
  let request := fresh "request" in
  destruct pd as [opCtx request collection ts ctx0 cq0 calls0];
  crunch request.

(** Closes a goal saying that a log extends another one. *)
Ltac log_grows :=
  fold (@app Event);
  first [ exists []; rewrite app_nil_r; reflexivity
        | rewrite <- ?app_assoc; eexists; reflexivity ].

(** Finds an event in a concrete log. *)
Ltac find_event Hin :=
  simpl in Hin;
  repeat match type of Hin with
         | _ \/ _ => destruct Hin as [Hin|Hin]; [try discriminate Hin|]
         | False => destruct Hin
         end.

(** * The paths through [parseRequest] *)

Section Paths.

Context {T : OpaqueTypes} {E : Collaborators}.

(** Path 1: a request that breaks the caller's contract. *)
Lemma parseRequest_invalid (pd : ParsedDelete) :
  validRequest (_request pd) = false ->
  parseRequest pd = (Aborted InvariantFailure, pd).
Proof.
  unfold validRequest, parseRequest, bind, get, dassert, invariant, ret.
  intro H.
  destruct kDebugBuild, (isSome (_canonicalQuery pd)); simpl;
    destruct (getReturnDeleted (_request pd)), (getMulti (_request pd)),
             (isEmpty (getProj (_request pd))); simpl in *; congruence.
Qed.

Lemma newParsedDelete_fresh opCtx request collection isTs :
  newParsedDelete opCtx request collection isTs =
  fresh opCtx request collection
        (_timeseriesDeleteQueryExprs (newParsedDelete opCtx request collection isTs)).
Proof. reflexivity. Qed.

(** Path 2: the _id fast path. *)
Lemma fresh_fast_path opCtx request collection :
  validRequest request = true ->
  isSimpleIdQuery (getQuery request) = true ->
  parseRequest (fresh opCtx request collection None) =
    (Returned StatusOK,
     {| _opCtx := opCtx; _request := request; _collection := collection;
        _timeseriesDeleteQueryExprs := None;
        _expCtx := Some (requestExpCtx opCtx request collection);
        _canonicalQuery := None;
        calls := [EvResolveCollator (getCollation request)] |}).
Proof.
  unfold validRequest, requestExpCtx. intros Hv Hid.
  crunch request; reflexivity.
Qed.

(** Path 3: an ordinary delete goes to the canonicalizer with its own filter. *)
Lemma fresh_plain opCtx request collection :
  validRequest request = true ->
  isSimpleIdQuery (getQuery request) = false ->
  parseRequest (fresh opCtx request collection None) =
    afterCanonicalize opCtx request collection None
      (setCountersActive (requestExpCtx opCtx request collection) true)
      (assembled request (getQuery request))
      [EvResolveCollator (getCollation request); EvStartExpressionCounters].
Proof.
  unfold validRequest, requestExpCtx, afterCanonicalize, assembled. intros Hv Hid.
  crunch request; reflexivity.
Qed.

(** Path 4: the splitter returned no bucket-level predicate. *)
Lemma fresh_ts_null opCtx request collection exprs0 :
  validRequest request = true ->
  _bucketExpr (splitOf opCtx request collection) = None ->
  parseRequest (fresh opCtx request collection (Some exprs0)) =
    (Thrown (TripwireAssertion 7542400 "Bucket-level filter must not be null"),
     afterSplit opCtx request collection).
Proof.
  unfold validRequest, afterSplit, tsEvents, splitOf, requestExpCtx. intros Hv Hb.
  crunch request; reflexivity.
Qed.

(** Path 5: non-multi delete with a sort on a time-partitioned collection. *)
Lemma fresh_ts_sort opCtx request collection exprs0 :
  validRequest request = true ->
  _bucketExpr (splitOf opCtx request collection) <> None ->
  getMulti request = false ->
  isEmpty (getSort request) = false ->
  parseRequest (fresh opCtx request collection (Some exprs0)) =
    (Thrown (UserAssertion InvalidOptions tsSortMessage),
     afterSplit opCtx request collection).
Proof.
  unfold validRequest, afterSplit, tsEvents, splitOf, requestExpCtx.
  intros Hv Hb Hm Hs.
  crunch request; solve [reflexivity | exfalso; apply Hb; reflexivity].
Qed.

(** Path 6: any other time-partitioned delete goes to the canonicalizer with
    the serialized bucket-level predicate. *)
Lemma fresh_ts_ok opCtx request collection exprs0 b :
  validRequest request = true ->
  _bucketExpr (splitOf opCtx request collection) = Some b ->
  negb (getMulti request) && negb (isEmpty (getSort request)) = false ->
  parseRequest (fresh opCtx request collection (Some exprs0)) =
    afterCanonicalize opCtx request collection
      (Some (splitOf opCtx request collection))
      (requestExpCtx opCtx request collection)
      (assembled request (serialize b))
      (tsEvents request).
Proof.
  unfold validRequest, afterCanonicalize, assembled, tsEvents, splitOf, requestExpCtx.
  intros Hv Hb Hlim.
  crunch request; reflexivity.
Qed.

Lemma parseRequest_path opCtx request collection ts :
  Path opCtx request collection ts (parseRequest (fresh opCtx request collection ts)).
Proof.
  destruct (validRequest request) eqn:Hv.
  2:{ rewrite parseRequest_invalid by exact Hv. now apply PathInvalid. }
  destruct ts as [exprs0|].
  - destruct (_bucketExpr (splitOf opCtx request collection)) as [b|] eqn:Hb.
    + destruct (negb (getMulti request) && negb (isEmpty (getSort request))) eqn:Hlim.
      * apply andb_prop in Hlim. destruct Hlim as [Hm Hs].
        apply negb_true_iff in Hm. apply negb_true_iff in Hs.
        rewrite fresh_ts_sort; try assumption; try congruence.
        eapply PathSortOnTimeseries; eauto; congruence.
      * rewrite (fresh_ts_ok _ _ _ exprs0 Hv Hb Hlim).
        eapply PathBucket; eauto; congruence.
    + rewrite fresh_ts_null by assumption.
      apply PathNullBucket; auto; congruence.
  - destruct (isSimpleIdQuery (getQuery request)) eqn:Hid.
    + rewrite fresh_fast_path by assumption. now apply PathFast.
    + rewrite fresh_plain by assumption. now apply PathPlain.
Qed.

Lemma compile_path opCtx request collection isTs :
  Path opCtx request collection
       (_timeseriesDeleteQueryExprs (newParsedDelete opCtx request collection isTs))
       (compile opCtx request collection isTs).
Proof. apply parseRequest_path. Qed.

Lemma getFilter_assembled request filter :
  getFilter (assembled request filter) = filter.
Proof.
  unfold assembled.
  destruct (negb (getMulti request) && negb (isEmpty (getSort request))),
           (getLegacyRuntimeConstants request), (getLet request); reflexivity.
Qed.

Lemma getProjection_assembled request filter :
  getProjection (assembled request filter) = emptyObj.
Proof.
  unfold assembled.
  destruct (negb (getMulti request) && negb (isEmpty (getSort request))),
           (getLegacyRuntimeConstants request), (getLet request); reflexivity.
Qed.

Lemma getLimit_assembled request filter :
  getLimit (assembled request filter) =
  if negb (getMulti request) && negb (isEmpty (getSort request)) then Some 1 else None.
Proof.
  unfold assembled.
  destruct (negb (getMulti request) && negb (isEmpty (getSort request))),
           (getLegacyRuntimeConstants request), (getLet request); reflexivity.
Qed.

Lemma assembled_fields request filter :
  fcNamespace (assembled request filter) = getNsString request /\
  fcSort (assembled request filter) = getSort request /\
  fcCollation (assembled request filter) = getCollation request /\
  fcHint (assembled request filter) = getHint request /\
  fcLegacyRuntimeConstants (assembled request filter) = getLegacyRuntimeConstants request /\
  fcLet (assembled request filter) = getLet request.
Proof.
  unfold assembled.
  destruct (negb (getMulti request) && negb (isEmpty (getSort request))),
           (getLegacyRuntimeConstants request), (getLet request); repeat split.
Qed.

End Paths.

(** * The properties of the compiler *)

Section Claims.

Context {T : OpaqueTypes} {E : Collaborators}.

(** C1.  Whenever [compile] succeeds and leaves a compiled query behind, the
    canonicalizer was called once, last, on a find command [fc]; the stored
    query is what the canonicalizer returned for [fc]; and the limit of [fc]
    is exactly 1 if and only if the request is not multi and its sort is
    non-empty, and unset otherwise, in particular for every multi request. *)
Theorem limit_one_iff_single_and_sorted
    opCtx request collection isTs (pd : ParsedDelete) :
  compile opCtx request collection isTs = (Returned StatusOK, pd) ->
  hasParsedQuery pd = true ->
  exists fc ctx cq evs,
    calls pd = evs ++ [EvCanonicalize fc (getIsExplain request) ctx] /\
    canonicalizerInputs (calls pd) = [fc] /\
    canonicalize opCtx fc (getIsExplain request) ctx (getNsString request) = SWValue cq /\
    _canonicalQuery pd = Some cq /\
    (getLimit fc = Some 1 <->
       getMulti request = false /\ isEmpty (getSort request) = false) /\
    (getLimit fc = None <->
       ~ (getMulti request = false /\ isEmpty (getSort request) = false)) /\
    (getMulti request = true -> getLimit fc = None).
Proof.
  intros Hrun Hcq.
  assert (Hlim : forall f,
    (getLimit (assembled request f) = Some 1 <->
       getMulti request = false /\ isEmpty (getSort request) = false) /\
    (getLimit (assembled request f) = None <->
       ~ (getMulti request = false /\ isEmpty (getSort request) = false)) /\
    (getMulti request = true -> getLimit (assembled request f) = None)).
  { intro f. rewrite getLimit_assembled.
    destruct (getMulti request), (isEmpty (getSort request)); simpl;
      intuition congruence. }
  pose proof (compile_path opCtx request collection isTs) as P.
  rewrite Hrun in P. inversion P as
    [ | Hv Hts Hid Hst | Hv Hts Hid Hst | | | b Hv Hts Hb Hl Hst ].
  - subst pd. discriminate Hcq.
  - unfold afterCanonicalize in Hst.
    destruct (canonicalize _ _ _ _ _) as [cq|code reason] eqn:Hc;
      [|discriminate Hst].
    subst pd. simpl.
    eexists _, _, cq, [_; _].
    split; [reflexivity|]. split; [reflexivity|]. split; [exact Hc|].
    split; [reflexivity|]. apply Hlim.
  - unfold afterCanonicalize in Hst.
    destruct (canonicalize _ _ _ _ _) as [cq|code reason] eqn:Hc;
      [|discriminate Hst].
    subst pd. simpl.
    eexists _, _, cq, (tsEvents request).
    split; [reflexivity|]. split; [reflexivity|]. split; [exact Hc|].
    split; [reflexivity|]. apply Hlim.
Qed.

(** C2.  A single-document delete with a non-empty sort on a time-partitioned
    delete (the request satisfying the caller's contract and the splitter
    having returned a bucket-level predicate) fails with the user assertion
    [InvalidOptions]: it is neither a tripwire assertion nor an abort, the
    canonicalizer is never called and no compiled query is stored. *)
Theorem sort_on_timeseries_is_invalid_options
    opCtx request collection isTs :
  validRequest request = true ->
  isTimeseries (newParsedDelete opCtx request collection isTs) = true ->
  _bucketExpr (splitOf opCtx request collection) <> None ->
  getMulti request = false ->
  isEmpty (getSort request) = false ->
  exists pd,
    compile opCtx request collection isTs =
      (Thrown (UserAssertion InvalidOptions tsSortMessage), pd) /\
    isUserFacing (fst (compile opCtx request collection isTs)) = true /\
    isAborted (fst (compile opCtx request collection isTs)) = false /\
    isTripwire (fst (compile opCtx request collection isTs)) = false /\
    hasParsedQuery pd = false /\
    canonicalizerInputs (calls pd) = [].
Proof.
  intros Hv Hts Hb Hm Hs. unfold isTimeseries in Hts.
  pose proof (compile_path opCtx request collection isTs) as P.
  inversion P as
    [ Hv' | Hv' Hts' | Hv' Hts' | Hv' Hts' Hb' | b Hv' Hts' Hb' Hm' Hs' Hst
    | b Hv' Hts' Hb' Hl Hst ].
  - congruence.
  - rewrite Hts' in Hts. discriminate Hts.
  - rewrite Hts' in Hts. discriminate Hts.
  - contradiction.
  - exists (afterSplit opCtx request collection). repeat split.
  - rewrite Hm, Hs in Hl. discriminate Hl.
Qed.

(** C3.  A request whose predicate is a simple _id equality, on a delete that
    is not time-partitioned, returns OK without calling the canonicalizer; no
    compiled query is held, and the expression counters are never started. *)
Theorem simple_id_delete_takes_fast_path
    opCtx request collection isTs :
  validRequest request = true ->
  isSimpleIdQuery (getQuery request) = true ->
  isTimeseries (newParsedDelete opCtx request collection isTs) = false ->
  exists pd,
    compile opCtx request collection isTs = (Returned StatusOK, pd) /\
    hasParsedQuery pd = false /\
    canonicalizerInputs (calls pd) = [] /\
    existsb isStart (calls pd) = false /\
    (forall ctx, _expCtx pd = Some ctx -> countersActive ctx = false).
Proof.
  intros Hv Hid Hts. unfold isTimeseries in Hts.
  pose proof (compile_path opCtx request collection isTs) as P.
  inversion P as
    [ Hv' | Hv' Hts' Hid' Hst | Hv' Hts' Hid' | Hv' Hts' | b Hv' Hts' | b Hv' Hts' ];
    try congruence;
    try (destruct (_timeseriesDeleteQueryExprs _); [discriminate Hts | congruence]).
  eexists. split; [reflexivity|]. repeat split.
  intros ctx Hctx. simpl in Hctx. injection Hctx as <-. reflexivity.
Qed.

(** C4, as amended.  On a time-partitioned delete the compiler tests the
    bucket-level predicate for null only.  A null predicate raises tripwire
    assertion 7542400, which is not a user assertion, before the canonicalizer
    is called and with no compiled query stored; and every run that does not
    end in that tripwire holds a non-null bucket-level predicate, the one the
    splitter returned. *)
Theorem null_bucket_predicate_is_a_tripwire
    opCtx request collection isTs :
  validRequest request = true ->
  isTimeseries (newParsedDelete opCtx request collection isTs) = true ->
  (_bucketExpr (splitOf opCtx request collection) = None ->
     compile opCtx request collection isTs =
       (Thrown (TripwireAssertion 7542400 "Bucket-level filter must not be null"),
        afterSplit opCtx request collection) /\
     isUserFacing (fst (compile opCtx request collection isTs)) = false /\
     canonicalizerInputs (calls (snd (compile opCtx request collection isTs))) = [] /\
     hasParsedQuery (snd (compile opCtx request collection isTs)) = false) /\
  (isTripwire (fst (compile opCtx request collection isTs)) = false ->
     exists b residual,
       _timeseriesDeleteQueryExprs (snd (compile opCtx request collection isTs)) =
         Some {| _bucketExpr := Some b; _residualExpr := residual |} /\
       splitOf opCtx request collection =
         {| _bucketExpr := Some b; _residualExpr := residual |}).
Proof.
  intros Hv Hts. unfold isTimeseries in Hts.
  pose proof (compile_path opCtx request collection isTs) as P.
  inversion P as
    [ Hv' | Hv' Hts' | Hv' Hts' | Hv' Hts' Hb' Hst | b Hv' Hts' Hb' Hm' Hs' Hst
    | b Hv' Hts' Hb' Hl Hst ];
    try congruence;
    try (rewrite Hts' in Hts; discriminate Hts).
  - split; [intros _; repeat split | intro Htw; discriminate Htw].
  - split; [congruence|]. intros _.
    destruct (splitOf opCtx request collection) as [bk rs] eqn:Hsplit.
    simpl in Hb'. subst bk. exists b, rs. simpl. rewrite Hsplit. split; reflexivity.
  - split; [congruence|]. intros _.
    destruct (splitOf opCtx request collection) as [bk rs] eqn:Hsplit.
    simpl in Hb'. subst bk. exists b, rs. split; reflexivity.
Qed.

(** C5.  On a time-partitioned delete, a call of the canonicalizer receives as
    filter the serialized bucket-level predicate of the split, and the calls
    made are, in order: collation resolution, start of the counters, the split,
    stop of the counters, canonicalization; the expression context handed to
    the canonicalizer has its counters stopped. *)
Theorem timeseries_filter_is_bucket_predicate
    opCtx request collection isTs fc ex ctx :
  isTimeseries (newParsedDelete opCtx request collection isTs) = true ->
  In (EvCanonicalize fc ex ctx) (calls (snd (compile opCtx request collection isTs))) ->
  exists b,
    _bucketExpr (splitOf opCtx request collection) = Some b /\
    getFilter fc = serialize b /\
    calls (snd (compile opCtx request collection isTs)) =
      [EvResolveCollator (getCollation request);
       EvStartExpressionCounters;
       EvGetMatchExprsForWrites (getQuery request);
       EvStopExpressionCounters;
       EvCanonicalize fc ex ctx] /\
    countersActive ctx = false.
Proof.
  intros Hts Hin. unfold isTimeseries in Hts.
  pose proof (compile_path opCtx request collection isTs) as P.
  revert Hin.
  inversion P as
    [ Hv' | Hv' Hts' | Hv' Hts' | Hv' Hts' Hb' Hst | b Hv' Hts' Hb' Hm' Hs' Hst
    | b Hv' Hts' Hb' Hl Hst ];
    try (rewrite Hts' in Hts; discriminate Hts); simpl; intro Hin.
  - destruct Hin.
  - repeat (destruct Hin as [Hin|Hin]; [discriminate Hin|]). destruct Hin.
  - repeat (destruct Hin as [Hin|Hin]; [discriminate Hin|]). destruct Hin.
  - repeat (destruct Hin as [Hin|Hin]; [discriminate Hin|]).
    destruct Hin as [Hin|[]]. injection Hin as <- <- <-.
    exists b. split; [assumption|]. split; [apply getFilter_assembled|].
    split; reflexivity.
Qed.

(** C6.  After a compilation that did not abort, the delete is
    time-partitioned exactly when it was at construction, the residual
    predicate held is the one the split produced, and
    [isEligibleForArbitraryTimeseriesDelete] is true exactly when the delete is
    time-partitioned and (the split produced a residual predicate or the
    request is not multi). *)
Theorem eligibility_after_compile
    opCtx request collection isTs c pd :
  compile opCtx request collection isTs = (c, pd) ->
  isAborted c = false ->
  isTimeseries pd = isTimeseries (newParsedDelete opCtx request collection isTs) /\
  (isTimeseries pd = true ->
     getResidualExpr pd = _residualExpr (splitOf opCtx request collection)) /\
  isEligibleForArbitraryTimeseriesDelete pd =
    isTimeseries (newParsedDelete opCtx request collection isTs)
    && (isSome (_residualExpr (splitOf opCtx request collection))
        || negb (getMulti request)).
Proof.
  intros Hrun Hc. unfold isTimeseries.
  pose proof (compile_path opCtx request collection isTs) as P.
  rewrite Hrun in P.
  inversion P as
    [ Hv' Hst | Hv' Hts' Hid' Hst | Hv' Hts' Hid' Hst | Hv' Hts' Hb' Hst
    | b Hv' Hts' Hb' Hm' Hs' Hst | b Hv' Hts' Hb' Hl Hst ]; subst.
  - discriminate Hc.
  - rewrite Hts'. repeat split. discriminate.
  - rewrite Hts'. repeat split. discriminate.
  - destruct (_timeseriesDeleteQueryExprs (newParsedDelete _ _ _ _));
      [repeat split | congruence].
  - destruct (_timeseriesDeleteQueryExprs (newParsedDelete _ _ _ _));
      [repeat split | congruence].
  - destruct (_timeseriesDeleteQueryExprs (newParsedDelete _ _ _ _));
      [repeat split | congruence].
Qed.

(** C7.  A request with returnDeleted and multi both set, or with a non-empty
    projection and returnDeleted unset, makes [parseRequest] abort on an
    invariant failure with the object untouched: no call has been logged, no
    expression context built, no query stored. *)
Theorem contract_violation_aborts_before_any_work (pd : ParsedDelete) :
  (getReturnDeleted (_request pd) = true /\ getMulti (_request pd) = true) \/
  (isEmpty (getProj (_request pd)) = false /\ getReturnDeleted (_request pd) = false) ->
  parseRequest pd = (Aborted InvariantFailure, pd) /\
  calls (snd (parseRequest pd)) = calls pd /\
  _expCtx (snd (parseRequest pd)) = _expCtx pd /\
  _canonicalQuery (snd (parseRequest pd)) = _canonicalQuery pd.
Proof.
  intro H.
  assert (Hv : validRequest (_request pd) = false).
  { unfold validRequest. destruct H as [[-> ->] | [-> ->]]; [reflexivity|].
    apply andb_false_r. }
  rewrite (parseRequest_invalid pd Hv). repeat split.
Qed.

(** C8.  [releaseParsedQuery] on an object holding a compiled query returns
    that query and leaves the object holding none, so that [hasParsedQuery] is
    false and a second release aborts on an invariant failure; a release on an
    object holding none aborts on an invariant failure. *)
Theorem release_hands_over_once (pd : ParsedDelete) :
  (forall cq, _canonicalQuery pd = Some cq ->
     exists pd',
       releaseParsedQuery pd = (Returned cq, pd') /\
       _canonicalQuery pd' = None /\
       hasParsedQuery pd' = false /\
       releaseParsedQuery pd' = (Aborted InvariantFailure, pd')) /\
  (hasParsedQuery pd = false ->
     releaseParsedQuery pd = (Aborted InvariantFailure, pd)).
Proof.
  unfold hasParsedQuery, releaseParsedQuery, bind, get, invariant, modify, ret.
  split.
  - intros cq Hcq. rewrite Hcq. simpl. eexists. repeat split.
  - destruct (_canonicalQuery pd); [discriminate | reflexivity].
Qed.

(** C9.  When the feature flag and the collection yield no query-expressions
    object, constructing with [isTimeseriesDelete = true] gives a delete that
    is not time-partitioned and that compiles exactly as with [false]: the
    splitter is never called; a simple _id predicate takes the fast path; any
    other predicate of a request that passes the contract checks is handed to
    the canonicalizer, unchanged, as the filter of the one find command it
    receives, and the canonicalizer's answer is the result; and
    [isEligibleForArbitraryTimeseriesDelete] is false. *)
Theorem timeseries_flag_alone_is_not_enough opCtx request collection :
  createTimeseriesWritesQueryExprsIfNecessary
    gTimeseriesDeletesSupport_isEnabled collection = None ->
  isTimeseries (newParsedDelete opCtx request collection true) = false /\
  compile opCtx request collection true = compile opCtx request collection false /\
  existsb isSplit (calls (snd (compile opCtx request collection true))) = false /\
  (forall fc,
     In fc (canonicalizerInputs (calls (snd (compile opCtx request collection true)))) ->
     getFilter fc = getQuery request) /\
  (validRequest request = true -> isSimpleIdQuery (getQuery request) = true ->
     fst (compile opCtx request collection true) = Returned StatusOK /\
     hasParsedQuery (snd (compile opCtx request collection true)) = false /\
     canonicalizerInputs (calls (snd (compile opCtx request collection true))) = []) /\
  (validRequest request = true -> isSimpleIdQuery (getQuery request) = false ->
     exists fc ctx,
       calls (snd (compile opCtx request collection true)) =
         [EvResolveCollator (getCollation request);
          EvStartExpressionCounters;
          EvCanonicalize fc (getIsExplain request) ctx] /\
       canonicalizerInputs (calls (snd (compile opCtx request collection true))) = [fc] /\
       getFilter fc = getQuery request /\
       fst (compile opCtx request collection true) =
         Returned (getStatus (canonicalize opCtx fc (getIsExplain request) ctx
                                           (getNsString request))) /\
       (forall cq,
          canonicalize opCtx fc (getIsExplain request) ctx (getNsString request)
            = SWValue cq ->
          _canonicalQuery (snd (compile opCtx request collection true)) = Some cq)) /\
  isEligibleForArbitraryTimeseriesDelete (snd (compile opCtx request collection true))
    = false.
Proof.
  intro Hnone.
  assert (Hts : _timeseriesDeleteQueryExprs
                  (newParsedDelete opCtx request collection true) = None).
  { simpl. exact Hnone. }
  assert (Heq : compile opCtx request collection true =
                compile opCtx request collection false).
  { unfold compile, newParsedDelete. rewrite Hnone. reflexivity. }
  split; [unfold isTimeseries; rewrite Hts; reflexivity|].
  split; [exact Heq|].
  pose proof (compile_path opCtx request collection true) as P.
  inversion P as
    [ Hv' Hst | Hv' Hts' Hid' Hst | Hv' Hts' Hid' Hst | Hv' Hts' Hb' Hst
    | b Hv' Hts' Hb' Hm' Hs' Hst | b Hv' Hts' Hb' Hl Hst ];
    try congruence.
  - unfold isEligibleForArbitraryTimeseriesDelete. simpl. rewrite Hnone.
    repeat split; try tauto; congruence.
  - split; [reflexivity|]. split; [simpl; tauto|].
    split; [intros _ _; repeat split|].
    split; [congruence | reflexivity].
  - unfold afterCanonicalize, isEligibleForArbitraryTimeseriesDelete. simpl.
    split; [reflexivity|].
    split; [intros fc [<-|[]]; apply getFilter_assembled|].
    split; [congruence|].
    split; [|reflexivity].
    intros _ _. eexists _, _.
    split; [reflexivity|]. split; [reflexivity|].
    split; [apply getFilter_assembled|]. split; [reflexivity|].
    intros cq ->. reflexivity.
Qed.

(** C10.  The find command handed to the canonicalizer has an empty
    projection and carries the request's sort, collation, hint, runtime
    constants and let parameters; replacing the projection of a request
    changes neither the completion of [compile], nor the calls it makes (the
    canonicalizer's input included), nor the compiled query it stores. *)
Theorem projection_never_reaches_canonicalizer
    opCtx request collection isTs proj' :
  validRequest request = true ->
  validRequest (withProj request proj') = true ->
  (forall fc,
     In fc (canonicalizerInputs
              (calls (snd (compile opCtx (withProj request proj') collection isTs)))) ->
     getProjection fc = emptyObj /\
     fcSort fc = getSort request /\
     fcCollation fc = getCollation request /\
     fcHint fc = getHint request /\
     fcLegacyRuntimeConstants fc = getLegacyRuntimeConstants request /\
     fcLet fc = getLet request) /\
  fst (compile opCtx (withProj request proj') collection isTs) =
    fst (compile opCtx request collection isTs) /\
  calls (snd (compile opCtx (withProj request proj') collection isTs)) =
    calls (snd (compile opCtx request collection isTs)) /\
  _canonicalQuery (snd (compile opCtx (withProj request proj') collection isTs)) =
    _canonicalQuery (snd (compile opCtx request collection isTs)).
Proof.
  intros Hv Hv'.
  assert (Hfields : forall f fc,
    fc = assembled (withProj request proj') f ->
    getProjection fc = emptyObj /\
     fcSort fc = getSort request /\
     fcCollation fc = getCollation request /\
     fcHint fc = getHint request /\
     fcLegacyRuntimeConstants fc = getLegacyRuntimeConstants request /\
     fcLet fc = getLet request).
  { intros f fc ->. split; [apply getProjection_assembled|].
    destruct (assembled_fields (withProj request proj') f) as (_ & H). exact H. }
  unfold compile.
  rewrite (newParsedDelete_fresh opCtx request collection isTs).
  rewrite (newParsedDelete_fresh opCtx (withProj request proj') collection isTs).
  change (_timeseriesDeleteQueryExprs
            (newParsedDelete opCtx (withProj request proj') collection isTs))
    with (_timeseriesDeleteQueryExprs (newParsedDelete opCtx request collection isTs)).
  destruct (_timeseriesDeleteQueryExprs (newParsedDelete opCtx request collection isTs))
    as [exprs0|].
  - destruct (_bucketExpr (splitOf opCtx request collection)) as [b|] eqn:Hb.
    + destruct (negb (getMulti request) && negb (isEmpty (getSort request))) eqn:Hlim.
      * apply andb_prop in Hlim. destruct Hlim as [Hm Hs].
        apply negb_true_iff in Hm. apply negb_true_iff in Hs.
        assert (Hb' : _bucketExpr (splitOf opCtx request collection) <> None)
          by congruence.
        rewrite (@fresh_ts_sort _ _ opCtx request collection exprs0 Hv Hb' Hm Hs).
        rewrite (@fresh_ts_sort _ _ opCtx (withProj request proj') collection exprs0
                   Hv' Hb' Hm Hs).
        repeat split; simpl in *; tauto.
      * rewrite (@fresh_ts_ok _ _ opCtx request collection exprs0 b Hv Hb Hlim).
        rewrite (@fresh_ts_ok _ _ opCtx (withProj request proj') collection exprs0 b
                   Hv' Hb Hlim).
        split; [|repeat split].
        intros fc [<-|[]]. eapply Hfields. reflexivity.
    + rewrite (@fresh_ts_null _ _ opCtx request collection exprs0 Hv Hb).
      rewrite (@fresh_ts_null _ _ opCtx (withProj request proj') collection exprs0
                 Hv' Hb).
      repeat split; simpl in *; tauto.
  - destruct (isSimpleIdQuery (getQuery request)) eqn:Hid.
    + rewrite (@fresh_fast_path _ _ opCtx request collection Hv Hid).
      rewrite (@fresh_fast_path _ _ opCtx (withProj request proj') collection Hv' Hid).
      repeat split; simpl in *; tauto.
    + rewrite (@fresh_plain _ _ opCtx request collection Hv Hid).
      rewrite (@fresh_plain _ _ opCtx (withProj request proj') collection Hv' Hid).
      split; [|repeat split].
      intros fc [<-|[]]. eapply Hfields. reflexivity.
Qed.

End Claims.

(** * The theorems at concrete requests *)

(** C1 at a single-document delete sorted newest first on an ordinary
    collection: the canonicalizer sees limit 1. *)
Lemma limit_one_iff_single_and_sorted_witness :
  let E := Demo.collaborators true Demo.guardedSplit in
  let request := Demo.mkRequest Demo.byTemperature Demo.newestFirst [] false false in
  let pd := snd (compile (E := E) tt request Demo.plainCollection false) in
  exists fc ctx cq evs,
    calls pd = evs ++ [EvCanonicalize fc (getIsExplain request) ctx] /\
    canonicalizerInputs (calls pd) = [fc] /\
    canonicalize (Collaborators := E) tt fc (getIsExplain request) ctx
                 (getNsString request) = SWValue cq /\
    _canonicalQuery pd = Some cq /\
    (getLimit fc = Some 1 <->
       getMulti request = false /\ isEmpty (getSort request) = false) /\
    (getLimit fc = None <->
       ~ (getMulti request = false /\ isEmpty (getSort request) = false)) /\
    (getMulti request = true -> getLimit fc = None).
Proof.
  intros E request pd.
  apply (@limit_one_iff_single_and_sorted Demo.types E tt request
           Demo.plainCollection false pd); reflexivity.
Defined.

(** C2 at a single-document sorted delete on a time-series collection. *)
Lemma sort_on_timeseries_is_invalid_options_witness :
  let E := Demo.collaborators true Demo.guardedSplit in
  let request := Demo.mkRequest Demo.byTemperature Demo.newestFirst [] false true in
  exists pd,
    compile (E := E) tt request Demo.timeseriesCollection true =
      (Thrown (UserAssertion InvalidOptions tsSortMessage), pd) /\
    isUserFacing (fst (compile (E := E) tt request Demo.timeseriesCollection true))
      = true /\
    isAborted (fst (compile (E := E) tt request Demo.timeseriesCollection true))
      = false /\
    isTripwire (fst (compile (E := E) tt request Demo.timeseriesCollection true))
      = false /\
    hasParsedQuery pd = false /\
    canonicalizerInputs (calls pd) = [].
Proof.
  intros E request.
  apply (@sort_on_timeseries_is_invalid_options Demo.types E tt request
           Demo.timeseriesCollection true);
    try reflexivity.
  discriminate.
Defined.

(** C3 at a delete by _id on an ordinary collection. *)
Lemma simple_id_delete_takes_fast_path_witness :
  let E := Demo.collaborators true Demo.guardedSplit in
  let request := Demo.mkRequest Demo.byId [] [] false false in
  exists pd,
    compile (E := E) tt request Demo.plainCollection false = (Returned StatusOK, pd) /\
    hasParsedQuery pd = false /\
    canonicalizerInputs (calls pd) = [] /\
    existsb isStart (calls pd) = false /\
    (forall ctx, _expCtx pd = Some ctx -> countersActive ctx = false).
Proof.
  intros E request.
  apply (@simple_id_delete_takes_fast_path Demo.types E tt request
           Demo.plainCollection false); reflexivity.
Defined.

(** C4: a run in which the splitter hands back a bucket-level predicate that
    lacks the closed-bucket guard.  Nothing is asserted: the request is
    canonicalized and a compiled query is stored. *)
Lemma guardless_bucket_predicate_is_accepted :
  let E := Demo.collaborators true Demo.guardlessSplit in
  let request := Demo.mkRequest Demo.byTemperature [] [] true false in
  let run := compile (E := E) tt request Demo.timeseriesCollection true in
  isTimeseries (newParsedDelete (E := E) tt request Demo.timeseriesCollection true)
    = true /\
  (exists b,
     _bucketExpr (splitOf (E := E) tt request Demo.timeseriesCollection) = Some b /\
     Demo.includesClosedBucketGuard b = false) /\
  fst run = Returned StatusOK /\
  isTripwire (fst run) = false /\
  isAborted (fst run) = false /\
  hasParsedQuery (snd run) = true.
Proof.
  cbv zeta. split; [reflexivity|]. split; [|repeat split].
  exists (Demo.FieldEq "meta" (BInt 1)). split; reflexivity.
Qed.

(** C4, as amended, at a run in which the splitter returns no bucket-level
    predicate. *)
Lemma null_bucket_predicate_is_a_tripwire_witness :
  let E := Demo.collaborators true Demo.nullSplit in
  let request := Demo.mkRequest Demo.byTemperature [] [] true false in
  let run := compile (E := E) tt request Demo.timeseriesCollection true in
  fst run = Thrown (TripwireAssertion 7542400 "Bucket-level filter must not be null") /\
  isUserFacing (fst run) = false /\
  canonicalizerInputs (calls (snd run)) = [] /\
  hasParsedQuery (snd run) = false.
Proof.
  intros E request run.
  destruct (@null_bucket_predicate_is_a_tripwire Demo.types E tt request
              Demo.timeseriesCollection true eq_refl eq_refl) as [Hnull _].
  destruct (Hnull eq_refl) as (Hrun & Huser & Hin & Hcq).
  subst run. rewrite Hrun. repeat split.
Defined.

(** C5 at a multi-document delete on a time-series collection. *)
Lemma timeseries_filter_is_bucket_predicate_witness :
  let E := Demo.collaborators true Demo.guardedSplit in
  let request := Demo.mkRequest Demo.byTemperature [] [] true false in
  let run := compile (E := E) tt request Demo.timeseriesCollection true in
  exists fc ctx,
    getFilter fc = Demo.serializeExpr Demo.ClosedBucketGuard /\
    getFilter fc <> getQuery request /\
    calls (snd run) =
      [EvResolveCollator (getCollation request);
       EvStartExpressionCounters;
       EvGetMatchExprsForWrites (getQuery request);
       EvStopExpressionCounters;
       EvCanonicalize fc false ctx] /\
    countersActive ctx = false.
Proof.
  intros E request run.
  destruct (@timeseries_filter_is_bucket_predicate Demo.types E tt request
              Demo.timeseriesCollection true
              (assembled request (Demo.serializeExpr Demo.ClosedBucketGuard))
              false (requestExpCtx (E := E) tt request Demo.timeseriesCollection)
              eq_refl)
    as (b & Hb & Hf & Hcalls & Hctr).
  { simpl. do 4 right. left. reflexivity. }
  eexists _, _. split; [|split; [|split; [exact Hcalls | exact Hctr]]].
  - reflexivity.
  - discriminate.
Defined.

(** C6 at the same delete: a residual predicate was produced. *)
Lemma eligibility_after_compile_witness :
  let E := Demo.collaborators true Demo.guardedSplit in
  let request := Demo.mkRequest Demo.byTemperature [] [] true false in
  let pd := snd (compile (E := E) tt request Demo.timeseriesCollection true) in
  isEligibleForArbitraryTimeseriesDelete pd = true /\
  isTimeseries pd = true /\
  getResidualExpr pd = Some (Demo.FieldEq "temp" (BInt 21)).
Proof.
  intros E request pd.
  destruct (@eligibility_after_compile Demo.types E tt request
              Demo.timeseriesCollection true
              (Returned StatusOK) pd eq_refl eq_refl) as (Hts & Hres & Hel).
  rewrite Hel, Hts. repeat split.
Defined.

(** C7 at a request that asks for the deleted document of a multi-delete. *)
Lemma contract_violation_aborts_before_any_work_witness :
  let E := Demo.collaborators true Demo.guardedSplit in
  let request := Demo.mkRequest Demo.byTemperature [] [] true true in
  let pd := newParsedDelete (E := E) tt request Demo.plainCollection false in
  parseRequest pd = (Aborted InvariantFailure, pd) /\
  calls (snd (parseRequest pd)) = calls pd /\
  _expCtx (snd (parseRequest pd)) = _expCtx pd /\
  _canonicalQuery (snd (parseRequest pd)) = _canonicalQuery pd.
Proof.
  intros E request pd.
  apply (@contract_violation_aborts_before_any_work Demo.types E pd).
  left. split; reflexivity.
Defined.

(** C8 at the object left by a successful compilation. *)
Lemma release_hands_over_once_witness :
  let E := Demo.collaborators true Demo.guardedSplit in
  let request := Demo.mkRequest Demo.byTemperature [] [] true false in
  let pd := snd (compile (E := E) tt request Demo.plainCollection false) in
  exists pd',
    releaseParsedQuery pd = (Returned (Demo.byTemperature, None), pd') /\
    _canonicalQuery pd' = None /\
    hasParsedQuery pd' = false /\
    releaseParsedQuery pd' = (Aborted InvariantFailure, pd').
Proof.
  intros E request pd.
  exact (proj1 (@release_hands_over_once Demo.types pd)
               (Demo.byTemperature, None) eq_refl).
Defined.

(** C9 at a time-series collection with the feature flag off: a delete on
    another field goes to the canonicalizer with its own predicate, a delete
    by _id takes the fast path. *)
Lemma timeseries_flag_alone_is_not_enough_witness :
  let E := Demo.collaborators false Demo.guardedSplit in
  let idRequest := Demo.mkRequest Demo.byId [] [] false false in
  let request := Demo.mkRequest Demo.byTemperature [] [] true false in
  let run := compile (E := E) tt request Demo.timeseriesCollection true in
  (isTimeseries (newParsedDelete (E := E) tt request Demo.timeseriesCollection true)
     = false /\
   (exists fc ctx,
      calls (snd run) =
        [EvResolveCollator (getCollation request);
         EvStartExpressionCounters;
         EvCanonicalize fc (getIsExplain request) ctx] /\
      getFilter fc = Demo.byTemperature /\
      _canonicalQuery (snd run) = Some (Demo.byTemperature, None)) /\
   isEligibleForArbitraryTimeseriesDelete (snd run) = false) /\
  (fst (compile (E := E) tt idRequest Demo.timeseriesCollection true) = Returned StatusOK /\
   hasParsedQuery (snd (compile (E := E) tt idRequest Demo.timeseriesCollection true))
     = false).
Proof.
  intros E idRequest request run. split.
  - destruct (@timeseries_flag_alone_is_not_enough Demo.types E tt request
                Demo.timeseriesCollection eq_refl)
      as (Hts & _ & _ & _ & _ & Hcanon & Hel).
    destruct (Hcanon eq_refl eq_refl) as (fc & ctx & Hcalls & _ & Hf & _ & Hcq).
    split; [exact Hts|]. split; [|exact Hel].
    exists fc, ctx. split; [exact Hcalls|]. split; [exact Hf|].
    apply Hcq.
    assert (Hfc : fc = assembled request (getQuery request)).
    { subst run. simpl in Hcalls. injection Hcalls as Hfc _. symmetry. exact Hfc. }
    assert (Hctx : ctx = setCountersActive
                           (requestExpCtx (E := E) tt request
                                          Demo.timeseriesCollection) true).
    { subst run. simpl in Hcalls. injection Hcalls as _ Hctx. symmetry. exact Hctx. }
    rewrite Hfc, Hctx. reflexivity.
  - destruct (@timeseries_flag_alone_is_not_enough Demo.types E tt idRequest
                Demo.timeseriesCollection eq_refl)
      as (_ & _ & _ & _ & Hfast & _).
    destruct (Hfast eq_refl eq_refl) as (Hok & Hcq & _).
    split; [exact Hok | exact Hcq].
Defined.

(** C10 at a findAndModify-style request with a projection. *)
Lemma projection_never_reaches_canonicalizer_witness :
  let E := Demo.collaborators true Demo.guardedSplit in
  let request := Demo.mkRequest Demo.byTemperature Demo.newestFirst [] false true in
  let proj' : BSONObj := [("temp", BInt 1)] in
  let run' := compile (E := E) tt (withProj request proj') Demo.plainCollection false in
  let run := compile (E := E) tt request Demo.plainCollection false in
  fst run' = fst run /\
  calls (snd run') = calls (snd run) /\
  _canonicalQuery (snd run') = _canonicalQuery (snd run) /\
  _canonicalQuery (snd run') = Some (Demo.byTemperature, Some 1).
Proof.
  intros E request proj' run' run.
  destruct (@projection_never_reaches_canonicalizer Demo.types E tt request
              Demo.plainCollection false proj' eq_refl eq_refl)
    as (_ & Hfst & Hcalls & Hcq).
  split; [exact Hfst|]. split; [exact Hcalls|]. split; [exact Hcq|]. reflexivity.
Defined.

(** * Further properties of the compiler *)

Section ObjectFacts.

Context {T : OpaqueTypes} {E : Collaborators}.

(** What [parseRequest] leaves alone, from any state. *)
Lemma parseRequest_frame (pd : ParsedDelete) :
  _request (snd (parseRequest pd)) = _request pd /\
  _opCtx (snd (parseRequest pd)) = _opCtx pd /\
  _collection (snd (parseRequest pd)) = _collection pd /\
  isTimeseries (snd (parseRequest pd)) = isTimeseries pd /\
  exists evs, calls (snd (parseRequest pd)) = calls pd ++ evs.
Proof.
  unfold isTimeseries.
  crunch_object pd.
  all: repeat split.
  all: log_grows.
Qed.

(** What [releaseParsedQuery] leaves alone, from any state. *)
Lemma releaseParsedQuery_frame (pd : ParsedDelete) :
  _request (snd (releaseParsedQuery pd)) = _request pd /\
  _opCtx (snd (releaseParsedQuery pd)) = _opCtx pd /\
  _collection (snd (releaseParsedQuery pd)) = _collection pd /\
  _timeseriesDeleteQueryExprs (snd (releaseParsedQuery pd)) =
    _timeseriesDeleteQueryExprs pd /\
  _expCtx (snd (releaseParsedQuery pd)) = _expCtx pd /\
  calls (snd (releaseParsedQuery pd)) = calls pd /\
  _canonicalQuery (snd (releaseParsedQuery pd)) = None.
Proof.
  unfold releaseParsedQuery, bind, get, invariant, modify, ret.
  destruct (_canonicalQuery pd) eqn:Hq; simpl; repeat split. exact Hq.
Qed.

(** X1.  Whatever its outcome and from any state, [parseRequest] leaves the
    request, the operation context, the collection and the time-partitioned
    status of the object as they were and only appends to the log of calls;
    [releaseParsedQuery] leaves all of these, the residual predicate and the
    eligibility for arbitrary-order deletes unchanged. *)
Theorem members_keep_what_the_object_was_given (pd : ParsedDelete) :
  (getRequest (snd (parseRequest pd)) = getRequest pd /\
   _opCtx (snd (parseRequest pd)) = _opCtx pd /\
   _collection (snd (parseRequest pd)) = _collection pd /\
   isTimeseries (snd (parseRequest pd)) = isTimeseries pd /\
   exists evs, calls (snd (parseRequest pd)) = calls pd ++ evs) /\
  (getRequest (snd (releaseParsedQuery pd)) = getRequest pd /\
   _opCtx (snd (releaseParsedQuery pd)) = _opCtx pd /\
   _collection (snd (releaseParsedQuery pd)) = _collection pd /\
   getResidualExpr (snd (releaseParsedQuery pd)) = getResidualExpr pd /\
   isEligibleForArbitraryTimeseriesDelete (snd (releaseParsedQuery pd)) =
     isEligibleForArbitraryTimeseriesDelete pd /\
   calls (snd (releaseParsedQuery pd)) = calls pd).
Proof.
  split; [exact (parseRequest_frame pd)|].
  destruct (releaseParsedQuery_frame pd) as (Hr & Ho & Hc & Hts & _ & Hcalls & _).
  unfold getRequest, isEligibleForArbitraryTimeseriesDelete, getResidualExpr.
  rewrite Hr, Hts. repeat split; assumption.
Qed.

(** X2.  From any state, [parseRequest] aborts exactly when the request breaks
    one of the two contract checks or, in a debug build, the object already
    holds a compiled query.  Every abort is an invariant failure, never a null
    dereference, and leaves the object untouched. *)
Theorem parseRequest_aborts_only_on_a_broken_contract (pd : ParsedDelete) :
  (isAborted (fst (parseRequest pd)) = true <->
   validRequest (_request pd) = false \/
   (kDebugBuild = true /\ hasParsedQuery pd = true)) /\
  (forall w, fst (parseRequest pd) = Aborted w ->
     w = InvariantFailure /\ snd (parseRequest pd) = pd).
Proof.
  unfold hasParsedQuery.
  crunch_object pd.
  all: split;
    [ split;
      [ intro H; first [discriminate H | left; reflexivity | right; split; reflexivity]
      | intros [H|[H1 H2]]; first [reflexivity | discriminate] ]
    | intros w H; first [discriminate H | injection H as <-; split; reflexivity] ].
Qed.

(** X4.  A second [parseRequest] on an object that still holds a compiled
    query aborts in a debug build and leaves the object untouched.  In a build
    without debug assertions it completes as on an object holding none, and the
    query held before survives unless the canonicalizer succeeds again. *)
Theorem reparse_on_a_used_object (pd : ParsedDelete) :
  (kDebugBuild = true -> hasParsedQuery pd = true ->
   parseRequest pd = (Aborted InvariantFailure, pd)) /\
  (kDebugBuild = false ->
   fst (parseRequest pd) = fst (parseRequest (set_canonicalQuery pd None)) /\
   (hasParsedQuery (snd (parseRequest (set_canonicalQuery pd None))) = false ->
    _canonicalQuery (snd (parseRequest pd)) = _canonicalQuery pd) /\
   (hasParsedQuery (snd (parseRequest (set_canonicalQuery pd None))) = true ->
    _canonicalQuery (snd (parseRequest pd)) =
    _canonicalQuery (snd (parseRequest (set_canonicalQuery pd None))))).
Proof.
  unfold hasParsedQuery.
  crunch_object pd.
  all: split; [intros Hd Hq; first [discriminate Hd | discriminate Hq | reflexivity]|].
  all: intro Hd; try discriminate Hd.
  all: repeat split; intros; try reflexivity; try discriminate.
Qed.

End ObjectFacts.

Section YieldPolicyFacts.

Context {T : OpaqueTypes} {E : Collaborators}.

Variable YieldPolicy : Type.
Variable NO_YIELD : YieldPolicy.
Variable getGod : DeleteRequest -> bool.
Variable getYieldPolicy : DeleteRequest -> YieldPolicy.

(** X14.  [yieldPolicy] answers the same before and after [parseRequest] and
    [releaseParsedQuery], whatever their outcome; for a request with the god
    flag it is [NO_YIELD] after parsing as well. *)
Theorem yieldPolicy_is_settled_by_the_request (pd : ParsedDelete) :
  yieldPolicy NO_YIELD getGod getYieldPolicy (snd (parseRequest pd)) =
    yieldPolicy NO_YIELD getGod getYieldPolicy pd /\
  yieldPolicy NO_YIELD getGod getYieldPolicy (snd (releaseParsedQuery pd)) =
    yieldPolicy NO_YIELD getGod getYieldPolicy pd /\
  (getGod (getRequest pd) = true ->
   yieldPolicy NO_YIELD getGod getYieldPolicy (snd (parseRequest pd)) = NO_YIELD).
Proof.
  destruct (parseRequest_frame pd) as (Hr & _).
  destruct (releaseParsedQuery_frame pd) as (Hr' & _).
  unfold yieldPolicy, getRequest. rewrite Hr, Hr'.
  split; [reflexivity|]. split; [reflexivity|]. intros ->. reflexivity.
Qed.

End YieldPolicyFacts.

Section CompileFacts.

Context {T : OpaqueTypes} {E : Collaborators}.

(** X5.  When the canonicalizer is called, it is called with the request's
    explain flag and namespace and with the expression context the object
    keeps; [compile] returns the canonicalizer's status unchanged; a value is
    stored as the compiled query; an error is returned with its code and
    reason and no query is stored. *)
Theorem canonicalizer_answer_is_the_result
    opCtx request collection isTs fc ex ctx :
  In (EvCanonicalize fc ex ctx) (calls (snd (compile opCtx request collection isTs))) ->
  ex = getIsExplain request /\
  fcNamespace fc = getNsString request /\
  _expCtx (snd (compile opCtx request collection isTs)) = Some ctx /\
  fst (compile opCtx request collection isTs) =
    Returned (getStatus (canonicalize opCtx fc ex ctx (getNsString request))) /\
  (forall cq,
     canonicalize opCtx fc ex ctx (getNsString request) = SWValue cq ->
     _canonicalQuery (snd (compile opCtx request collection isTs)) = Some cq) /\
  (forall code reason,
     canonicalize opCtx fc ex ctx (getNsString request) = SWError code reason ->
     fst (compile opCtx request collection isTs) = Returned (StatusError code reason) /\
     hasParsedQuery (snd (compile opCtx request collection isTs)) = false).
Proof.
  pose proof (compile_path opCtx request collection isTs) as P.
  inversion P as
    [ Hv Hst | Hv Hts Hid Hst | Hv Hts Hid Hst | Hv Hts Hb Hst
    | b Hv Hts Hb Hm Hs Hst | b Hv Hts Hb Hl Hst ]; simpl; intro Hin;
    find_event Hin.
  - injection Hin as <- <- <-.
    destruct (assembled_fields request (getQuery request)) as (Hns & _).
    split; [reflexivity|]. split; [exact Hns|]. split; [reflexivity|].
    split; [reflexivity|].
    split; [intros cq ->; reflexivity | intros code reason ->; split; reflexivity].
  - injection Hin as <- <- <-.
    destruct (assembled_fields request (serialize b)) as (Hns & _).
    split; [reflexivity|]. split; [exact Hns|]. split; [reflexivity|].
    split; [reflexivity|].
    split; [intros cq ->; reflexivity | intros code reason ->; split; reflexivity].
Qed.

(** X6.  If [compile] returns OK and holds no compiled query, then the request
    passed the contract checks, its predicate is a simple _id query, the
    delete is not time-partitioned, and collation resolution is the only call
    that was made. *)
Theorem ok_without_query_is_the_fast_path
    opCtx request collection isTs pd :
  compile opCtx request collection isTs = (Returned StatusOK, pd) ->
  hasParsedQuery pd = false ->
  validRequest request = true /\
  isSimpleIdQuery (getQuery request) = true /\
  isTimeseries (newParsedDelete opCtx request collection isTs) = false /\
  calls pd = [EvResolveCollator (getCollation request)].
Proof.
  intros Hrun Hq. unfold isTimeseries.
  pose proof (compile_path opCtx request collection isTs) as P.
  rewrite Hrun in P.
  inversion P as
    [ | Hv Hts Hid Hst | Hv Hts Hid Hst | | | b Hv Hts Hb Hl Hst ].
  - rewrite Hts. repeat split; assumption.
  - subst pd. unfold afterCanonicalize in *.
    destruct (canonicalize _ _ _ _ _); [discriminate Hq | discriminate Hst].
  - subst pd. unfold afterCanonicalize in *.
    destruct (canonicalize _ _ _ _ _); [discriminate Hq | discriminate Hst].
Qed.

(** X7.  A time-partitioned delete is always split, a simple _id predicate
    included: the calls begin with collation resolution, start of the
    counters, the split and stop of the counters, the object stores the
    result of the split, and an OK result always comes with a compiled
    query. *)
Theorem timeseries_delete_is_always_split
    opCtx request collection isTs :
  validRequest request = true ->
  isTimeseries (newParsedDelete opCtx request collection isTs) = true ->
  (exists rest,
     calls (snd (compile opCtx request collection isTs)) =
       [EvResolveCollator (getCollation request);
        EvStartExpressionCounters;
        EvGetMatchExprsForWrites (getQuery request);
        EvStopExpressionCounters] ++ rest) /\
  _timeseriesDeleteQueryExprs (snd (compile opCtx request collection isTs)) =
    Some (splitOf opCtx request collection) /\
  (fst (compile opCtx request collection isTs) = Returned StatusOK ->
   hasParsedQuery (snd (compile opCtx request collection isTs)) = true).
Proof.
  intros Hv Hts. unfold isTimeseries in Hts.
  pose proof (compile_path opCtx request collection isTs) as P.
  inversion P as
    [ Hv' Hst | Hv' Hts' Hid Hst | Hv' Hts' Hid Hst | Hv' Hts' Hb Hst
    | b Hv' Hts' Hb Hm Hs Hst | b Hv' Hts' Hb Hl Hst ];
    try congruence; try (rewrite Hts' in Hts; discriminate Hts).
  - split; [exists []; reflexivity|]. split; [reflexivity | discriminate].
  - split; [exists []; reflexivity|]. split; [reflexivity | discriminate].
  - unfold afterCanonicalize. simpl.
    split; [eexists; reflexivity|]. split; [reflexivity|].
    destruct (canonicalize _ _ _ _ _); [reflexivity | discriminate].
Qed.

(** X8.  On a delete that is not time-partitioned, a call of the
    canonicalizer receives the request's own predicate as filter, happens only
    for a predicate that is not a simple _id query, follows collation
    resolution and start of the counters directly, and sees the counters still
    running. *)
Theorem plain_delete_filter_is_the_request_predicate
    opCtx request collection isTs fc ex ctx :
  isTimeseries (newParsedDelete opCtx request collection isTs) = false ->
  In (EvCanonicalize fc ex ctx) (calls (snd (compile opCtx request collection isTs))) ->
  getFilter fc = getQuery request /\
  isSimpleIdQuery (getQuery request) = false /\
  calls (snd (compile opCtx request collection isTs)) =
    [EvResolveCollator (getCollation request);
     EvStartExpressionCounters;
     EvCanonicalize fc ex ctx] /\
  countersActive ctx = true.
Proof.
  intros Hts. unfold isTimeseries in Hts.
  pose proof (compile_path opCtx request collection isTs) as P.
  inversion P as
    [ Hv' Hst | Hv' Hts' Hid Hst | Hv' Hts' Hid Hst | Hv' Hts' Hb Hst
    | b Hv' Hts' Hb Hm Hs Hst | b Hv' Hts' Hb Hl Hst ];
    try (destruct (_timeseriesDeleteQueryExprs _); [discriminate Hts | congruence]);
    simpl; intro Hin; find_event Hin.
  injection Hin as <- <- <-.
  split; [apply getFilter_assembled|]. repeat split. exact Hid.
Qed.

(** X9.  On a time-partitioned delete the find command handed to the
    canonicalizer never has a limit: the canonicalizer is only reached by
    requests that are multi or have no sort. *)
Theorem timeseries_delete_never_carries_a_limit
    opCtx request collection isTs fc :
  isTimeseries (newParsedDelete opCtx request collection isTs) = true ->
  In fc (canonicalizerInputs (calls (snd (compile opCtx request collection isTs)))) ->
  getLimit fc = None /\
  (getMulti request = true \/ isEmpty (getSort request) = true).
Proof.
  intros Hts. unfold isTimeseries in Hts.
  pose proof (compile_path opCtx request collection isTs) as P.
  inversion P as
    [ Hv' Hst | Hv' Hts' Hid Hst | Hv' Hts' Hid Hst | Hv' Hts' Hb Hst
    | b Hv' Hts' Hb Hm Hs Hst | b Hv' Hts' Hb Hl Hst ];
    try (rewrite Hts' in Hts; discriminate Hts); simpl; intro Hin;
    find_event Hin.
  subst fc. rewrite getLimit_assembled, Hl. split; [reflexivity|].
  destruct (getMulti request), (isEmpty (getSort request)); auto; discriminate Hl.
Qed.


(** X11.  In every run of [compile] the canonicalizer is called at most once;
    the splitter is called exactly when the request passes the contract checks
    and the delete is time-partitioned; a request that breaks the contract
    causes no call at all; otherwise collation resolution is the first call,
    with the request's collation, and is never repeated. *)
Theorem call_discipline opCtx request collection isTs :
  (List.length (canonicalizerInputs (calls (snd (compile opCtx request collection isTs))))
     <= 1)%nat /\
  existsb isSplit (calls (snd (compile opCtx request collection isTs))) =
    validRequest request
    && isTimeseries (newParsedDelete opCtx request collection isTs) /\
  (validRequest request = false ->
     calls (snd (compile opCtx request collection isTs)) = []) /\
  (validRequest request = true ->
     exists rest,
       calls (snd (compile opCtx request collection isTs)) =
         EvResolveCollator (getCollation request) :: rest /\
       existsb isResolve rest = false).
Proof.
  unfold isTimeseries.
  pose proof (compile_path opCtx request collection isTs) as P.
  remember (_timeseriesDeleteQueryExprs
              (newParsedDelete opCtx request collection isTs)) as ts0 eqn:Hts0.
  inversion P as
    [ Hv' Hst | Hv' Hts' Hid Hst | Hv' Hts' Hid Hst | Hv' Hts' Hb Hst
    | b Hv' Hts' Hb Hm Hs Hst | b Hv' Hts' Hb Hl Hst ]; simpl;
    rewrite Hv';
    (destruct ts0; [|try congruence]); try discriminate Hts'; simpl.
  all: split; [auto|]. all: split; [reflexivity|].
  all: split; [intro Hf; first [reflexivity | discriminate Hf]|].
  all: intro Ht; try discriminate Ht.
  all: eexists; split; reflexivity.
Qed.

(** X12.  An object constructed with [isTimeseriesDelete = false] is never
    time-partitioned, whatever the collection and the feature flag: the
    splitter is not called, the delete is not eligible for arbitrary-order
    deletes, and a single-document delete with a sort whose predicate is not a
    simple _id query reaches the canonicalizer with limit 1. *)
Theorem without_the_timeseries_marker opCtx request collection :
  isTimeseries (snd (compile opCtx request collection false)) = false /\
  existsb isSplit (calls (snd (compile opCtx request collection false))) = false /\
  isEligibleForArbitraryTimeseriesDelete (snd (compile opCtx request collection false))
    = false /\
  (validRequest request = true ->
   isSimpleIdQuery (getQuery request) = false ->
   getMulti request = false -> isEmpty (getSort request) = false ->
   exists fc,
     canonicalizerInputs (calls (snd (compile opCtx request collection false))) = [fc] /\
     getLimit fc = Some 1).
Proof.
  pose proof (compile_path opCtx request collection false) as P.
  unfold isTimeseries, isEligibleForArbitraryTimeseriesDelete.
  inversion P as
    [ Hv' Hst | Hv' Hts' Hid Hst | Hv' Hts' Hid Hst | Hv' Hts' Hb Hst
    | b Hv' Hts' Hb Hm Hs Hst | b Hv' Hts' Hb Hl Hst ];
    try (exfalso; apply Hts'; reflexivity); simpl.
  - repeat split; congruence.
  - repeat split; congruence.
  - unfold afterCanonicalize. simpl. repeat split.
    intros _ _ Hm Hs. eexists. split; [reflexivity|].
    rewrite getLimit_assembled, Hm, Hs. reflexivity.
Qed.

(** X13.  After a [compile] that returned OK and stored a query,
    [releaseParsedQuery] returns the value the canonicalizer gave for the one
    find command it received, and leaves the object without a query but with
    the same request, log, residual predicate and eligibility. *)
Theorem compile_then_release opCtx request collection isTs pd :
  compile opCtx request collection isTs = (Returned StatusOK, pd) ->
  hasParsedQuery pd = true ->
  exists fc ctx cq pd',
    releaseParsedQuery pd = (Returned cq, pd') /\
    canonicalizerInputs (calls pd) = [fc] /\
    _expCtx pd = Some ctx /\
    canonicalize opCtx fc (getIsExplain request) ctx (getNsString request)
      = SWValue cq /\
    hasParsedQuery pd' = false /\
    getRequest pd' = request /\
    calls pd' = calls pd /\
    getResidualExpr pd' = getResidualExpr pd /\
    isEligibleForArbitraryTimeseriesDelete pd' =
      isEligibleForArbitraryTimeseriesDelete pd.
Proof.
  intros Hrun Hq.
  pose proof (compile_path opCtx request collection isTs) as P.
  rewrite Hrun in P.
  inversion P as
    [ | Hv Hts Hid Hst | Hv Hts Hid Hst | | | b Hv Hts Hb Hl Hst ].
  - subst pd. discriminate Hq.
  - unfold afterCanonicalize in Hst.
    destruct (canonicalize _ _ _ _ _) as [cq|code reason] eqn:Hc;
      [|discriminate Hst].
    subst pd. eexists _, _, cq, _.
    split; [reflexivity|]. split; [reflexivity|]. split; [reflexivity|].
    split; [exact Hc|]. repeat split.
  - unfold afterCanonicalize in Hst.
    destruct (canonicalize _ _ _ _ _) as [cq|code reason] eqn:Hc;
      [|discriminate Hst].
    subst pd. eexists _, _, cq, _.
    split; [reflexivity|]. split; [reflexivity|]. split; [reflexivity|].
    split; [exact Hc|]. repeat split.
Qed.

End CompileFacts.

(** * The further properties at concrete requests *)

(** X2 at a multi-delete that asks for the deleted document. *)
Lemma parseRequest_aborts_only_on_a_broken_contract_witness :
  let E := Demo.collaborators true Demo.guardedSplit in
  let request := Demo.mkRequest Demo.byTemperature [] [] true true in
  let pd := newParsedDelete (E := E) tt request Demo.plainCollection false in
  isAborted (fst (parseRequest pd)) = true /\
  snd (parseRequest pd) = pd.
Proof.
  intros E request pd.
  destruct (@parseRequest_aborts_only_on_a_broken_contract Demo.types E pd)
    as [Hiff Hw].
  split; [apply Hiff; left; reflexivity|].
  exact (proj2 (Hw InvariantFailure eq_refl)).
Defined.

(** X4 in a build without debug assertions: a delete by _id parsed on an
    object that still holds the query of an earlier run leaves that query in
    place. *)
Lemma reparse_on_a_used_object_witness :
  let E := releaseBuild (Demo.collaborators true Demo.guardedSplit) in
  let used :=
    set_canonicalQuery (T := Demo.types)
      (newParsedDelete (E := E) tt (Demo.mkRequest Demo.byId [] [] false false)
                       Demo.plainCollection false)
      (Some (Demo.byTemperature, None)) in
  fst (parseRequest (E := E) used) = Returned StatusOK /\
  _canonicalQuery (snd (parseRequest (E := E) used)) =
    Some (Demo.byTemperature, None).
Proof.
  intros E used.
  destruct (@reparse_on_a_used_object Demo.types E used) as [_ Hrel].
  destruct (Hrel eq_refl) as (Hfst & Hkeep & _).
  split; [rewrite Hfst; reflexivity|].
  rewrite (Hkeep eq_refl). reflexivity.
Defined.

(** X5 at a filter the canonicalizer rejects. *)
Lemma canonicalizer_answer_is_the_result_witness :
  let E := Demo.collaborators true Demo.guardedSplit in
  let request := Demo.mkRequest [("$bogus", BInt 1)] [] [] true false in
  let run := compile (E := E) tt request Demo.plainCollection false in
  fst run = Returned (StatusError 2 "unknown top level operator") /\
  hasParsedQuery (snd run) = false.
Proof.
  intros E request run.
  destruct (@canonicalizer_answer_is_the_result Demo.types E tt request
              Demo.plainCollection false
              (assembled request (getQuery request)) false
              (setCountersActive
                 (requestExpCtx (E := E) tt request Demo.plainCollection) true))
    as (_ & _ & _ & _ & _ & Herr).
  { simpl. do 2 right. left. reflexivity. }
  exact (Herr 2 "unknown top level operator" eq_refl).
Defined.

(** X6 at a delete by _id on an ordinary collection. *)
Lemma ok_without_query_is_the_fast_path_witness :
  let E := Demo.collaborators true Demo.guardedSplit in
  let request := Demo.mkRequest Demo.byId [] [] false false in
  let pd := snd (compile (E := E) tt request Demo.plainCollection false) in
  validRequest request = true /\
  isSimpleIdQuery (Collaborators := E) (getQuery request) = true /\
  isTimeseries (newParsedDelete (E := E) tt request Demo.plainCollection false)
    = false /\
  calls pd = [EvResolveCollator (getCollation request)].
Proof.
  intros E request pd.
  apply (@ok_without_query_is_the_fast_path Demo.types E tt request
           Demo.plainCollection false pd); reflexivity.
Defined.

(** X7 at a delete by _id on a time-series collection: it is split like any
    other. *)
Lemma timeseries_delete_is_always_split_witness :
  let E := Demo.collaborators true Demo.guardedSplit in
  let request := Demo.mkRequest Demo.byId [] [] false false in
  let run := compile (E := E) tt request Demo.timeseriesCollection true in
  (exists rest,
     calls (snd run) =
       [EvResolveCollator (getCollation request);
        EvStartExpressionCounters;
        EvGetMatchExprsForWrites (getQuery request);
        EvStopExpressionCounters] ++ rest) /\
  hasParsedQuery (snd run) = true.
Proof.
  intros E request run.
  destruct (@timeseries_delete_is_always_split Demo.types E tt request
              Demo.timeseriesCollection true eq_refl eq_refl)
    as (Hcalls & _ & Hok).
  split; [exact Hcalls | exact (Hok eq_refl)].
Defined.

(** X8 at a multi-document delete on an ordinary collection. *)
Lemma plain_delete_filter_is_the_request_predicate_witness :
  let E := Demo.collaborators true Demo.guardedSplit in
  let request := Demo.mkRequest Demo.byTemperature [] [] true false in
  let run := compile (E := E) tt request Demo.plainCollection false in
  exists fc ctx,
    getFilter fc = Demo.byTemperature /\
    calls (snd run) =
      [EvResolveCollator (getCollation request);
       EvStartExpressionCounters;
       EvCanonicalize fc false ctx] /\
    countersActive ctx = true.
Proof.
  intros E request run.
  destruct (@plain_delete_filter_is_the_request_predicate Demo.types E tt request
              Demo.plainCollection false
              (assembled request (getQuery request)) false
              (setCountersActive
                 (requestExpCtx (E := E) tt request Demo.plainCollection) true)
              eq_refl)
    as (Hf & _ & Hcalls & Hctr).
  { simpl. do 2 right. left. reflexivity. }
  eexists _, _. split; [exact Hf|]. split; [exact Hcalls | exact Hctr].
Defined.

(** X9 at a sorted multi-document delete on a time-series collection. *)
Lemma timeseries_delete_never_carries_a_limit_witness :
  let E := Demo.collaborators true Demo.guardedSplit in
  let request := Demo.mkRequest Demo.byTemperature Demo.newestFirst [] true false in
  getLimit (assembled request (Demo.serializeExpr Demo.ClosedBucketGuard)) = None.
Proof.
  intros E request.
  refine (proj1 (@timeseries_delete_never_carries_a_limit Demo.types E tt request
                   Demo.timeseriesCollection true _ eq_refl _)).
  simpl. left. reflexivity.
Defined.


(** X11 at a multi-document delete on a time-series collection. *)
Lemma call_discipline_witness :
  let E := Demo.collaborators true Demo.guardedSplit in
  let request := Demo.mkRequest Demo.byTemperature [] [] true false in
  let run := compile (E := E) tt request Demo.timeseriesCollection true in
  existsb isSplit (calls (snd run)) = true /\
  exists rest,
    calls (snd run) = EvResolveCollator (getCollation request) :: rest /\
    existsb isResolve rest = false.
Proof.
  intros E request run.
  destruct (@call_discipline Demo.types E tt request Demo.timeseriesCollection true)
    as (_ & Hsplit & _ & Hvalid).
  split; [exact Hsplit | exact (Hvalid eq_refl)].
Defined.

(** X12 at a sorted single-document delete on a time-series collection, the
    object constructed without the time-series marker. *)
Lemma without_the_timeseries_marker_witness :
  let E := Demo.collaborators true Demo.guardedSplit in
  let request := Demo.mkRequest Demo.byTemperature Demo.newestFirst [] false true in
  let run := compile (E := E) tt request Demo.timeseriesCollection false in
  isTimeseries (snd run) = false /\
  exists fc,
    canonicalizerInputs (calls (snd run)) = [fc] /\ getLimit fc = Some 1.
Proof.
  intros E request run.
  destruct (@without_the_timeseries_marker Demo.types E tt request
              Demo.timeseriesCollection)
    as (Hts & _ & _ & Hlimit).
  split; [exact Hts|].
  exact (Hlimit eq_refl eq_refl eq_refl eq_refl).
Defined.

(** X13 at a multi-document delete on an ordinary collection. *)
Lemma compile_then_release_witness :
  let E := Demo.collaborators true Demo.guardedSplit in
  let request := Demo.mkRequest Demo.byTemperature [] [] true false in
  let pd := snd (compile (E := E) tt request Demo.plainCollection false) in
  exists fc ctx cq pd',
    releaseParsedQuery pd = (Returned cq, pd') /\
    canonicalizerInputs (calls pd) = [fc] /\
    _expCtx pd = Some ctx /\
    canonicalize (Collaborators := E) tt fc (getIsExplain request) ctx
                 (getNsString request) = SWValue cq /\
    hasParsedQuery pd' = false /\
    getRequest pd' = request /\
    calls pd' = calls pd /\
    getResidualExpr pd' = getResidualExpr pd /\
    isEligibleForArbitraryTimeseriesDelete pd' =
      isEligibleForArbitraryTimeseriesDelete pd.
Proof.
  intros E request pd.
  apply (@compile_then_release Demo.types E tt request Demo.plainCollection false pd);
    reflexivity.
Defined.

(** X14 with a request accessor that always reports the god flag. *)
Lemma yieldPolicy_is_settled_by_the_request_witness :
  let E := Demo.collaborators true Demo.guardedSplit in
  let request := Demo.mkRequest Demo.byTemperature [] [] true false in
  let pd := newParsedDelete (E := E) tt request Demo.plainCollection false in
  yieldPolicy (T := Demo.types) 0%nat (fun _ => true) (fun _ => 1%nat)
              (snd (parseRequest pd)) = 0%nat.
Proof.
  intros E request pd.
  exact (proj2 (proj2 (@yieldPolicy_is_settled_by_the_request Demo.types E nat 0%nat
                         (fun _ => true) (fun _ => 1%nat) pd)) eq_refl).
Defined.
